(** * TripBuddy: the trip planner of [TripBuddy.py], embedded and verified

    The development follows the source file top to bottom:

    - [scrape_holidify_attractions] and [scrape_holidify_hotels], the two
      fetchers, with their [try]/[except] blocks;
    - [filter_attractions], the keyword filter;
    - [generate_plan], the orchestration with its random draws.

    What lies outside the file is an input of the model: the network and the
    HTML parser ([world]), the Unicode character tables ([unicode]) and the
    random source (a tape of draws in the [state]).  Python exceptions are
    results ([Raised]); [print] writes to the standard output of the
    [world], which may refuse what is written, and what it accepts is kept
    in [stdout] in the [state].
    Floating-point values are the kernel's binary64 floats, so that
    [budget * 0.30] is the product Python computes. *)

From Stdlib Require Import ZArith NArith List Lia Permutation.
From Stdlib Require Import PrimFloat SpecFloat FloatOps.
From Stdlib Require Import DecimalString DecimalZ.
From stdpp Require Import base strings list gmap.

#[local] Set Warnings "-inexact-float".
#[local] Open Scope Z_scope.

(** ** Text

    A Python [str] is a sequence of code points. *)

Abbreviation char := N (only parsing).
Abbreviation text := (list N) (only parsing).

(** An ASCII literal of the source as a [text]. *)
Definition str (s : string) : text :=
  map Ascii.N_of_ascii (String.list_ascii_of_string s).

(** The character tables Python consults: [str.isspace] (also the regex
    class [\s] and [str.strip]), the decimal value of a digit (the regex
    class [\d], [int] and [float] all accept the same characters),
    [str.lower], and [str.isprintable], which [repr] consults for the
    characters outside ASCII. *)
Record unicode := Unicode {
  isspace : char -> bool;
  todecimal : char -> option Z;
  lower : text -> text;
  isprintable : char -> bool
}.

Definition isdecimal (U : unicode) (c : char) : bool :=
  match todecimal U c with Some _ => true | None => false end.

(** The tables restricted to ASCII, to run the model on ASCII inputs. *)
Definition ascii_isspace (c : char) : bool :=
  (((9 <=? c) && (c <=? 13)) || ((28 <=? c) && (c <=? 32)))%N.

Definition ascii_todecimal (c : char) : option Z :=
  if ((48 <=? c) && (c <=? 57))%N then Some (Z.of_N c - 48) else None.

Definition ascii_lower (s : text) : text :=
  map (fun c => if ((65 <=? c) && (c <=? 90))%N then (c + 32)%N else c) s.

Definition ascii_isprintable (c : char) : bool :=
  ((32 <=? c) && (c <? 127))%N.

Definition ascii_tables : unicode :=
  Unicode ascii_isspace ascii_todecimal ascii_lower ascii_isprintable.

(** ** Exceptions, state and the monad of the program *)

Inductive pyclass :=
| IndexError | ValueError | ZeroDivisionError | OverflowError
| UnicodeEncodeError
| LibraryError (name : text).

(** An instance of (a subclass of) Python's [Exception]; [exn_message] is
    what [str(e)] gives. *)
Record exn := Exn { exn_class : pyclass; exn_message : text }.

Inductive outcome (A : Type) :=
| Returned (a : A)
| Raised (e : exn).
Arguments Returned {A} a.
Arguments Raised {A} e.

(** The random source is a tape of raw draws read at [cursor]; [stdout]
    holds the lines printed so far. *)
Record state := State {
  tape : nat -> N;
  cursor : nat;
  stdout : list text
}.

Definition M (A : Type) : Type := state -> outcome A * state.

Definition ret {A} (a : A) : M A := fun s => (Returned a, s).

Definition raise {A} (e : exn) : M A := fun s => (Raised e, s).

Definition bind {A B} (c : M A) (k : A -> M B) : M B :=
  fun s =>
    match c s with
    | (Returned a, s') => k a s'
    | (Raised e, s') => (Raised e, s')
    end.

Definition lift {A} (o : outcome A) : M A := fun s => (o, s).

(** [try: body  except Exception as e: handler e]; what the body did to the
    state before it raised stays done. *)
Definition try_except {A} (body : M A) (handler : exn -> M A) : M A :=
  fun s =>
    match body s with
    | (Returned a, s') => (Returned a, s')
    | (Raised e, s') => handler e s'
    end.

Declare Scope py_scope.
Delimit Scope py_scope with py.
Notation "x <- c ;; k" := (bind c (fun x => k))
  (at level 100, c at next level, right associativity) : py_scope.
Notation "c ;;; k" := (bind c (fun _ => k))
  (at level 100, right associativity) : py_scope.

(** The state after [print(msg, e)] has written its line: the two
    arguments separated by a space. *)
Definition printed (msg : text) (e : exn) (s : state) : state :=
  State (tape s) (cursor s) (stdout s ++ [msg ++ str " " ++ exn_message e]).

(** What [print(msg, e)] hands to [sys.stdout.write], one call each: the
    first argument, the separator, [str(e)] and the end of line. *)
Definition print_chunks (msg : text) (e : exn) : list text :=
  [msg; str " "; exn_message e; [10%N]].

(** ** Floating point

    [float_of_int] is the conversion Python applies to the [int] operand of
    a mixed operation: round to nearest, ties to even; [OverflowError] when
    the result is not finite. *)
Definition float_of_int (z : Z) : outcome float :=
  match binary_normalize prec emax z 0 false with
  | S754_infinity _ =>
      Raised (Exn OverflowError (str "int too large to convert to float"))
  | f => Returned (SF2Prim f)
  end.

(** [int * float] and [int + float]. *)
Definition int_mul_float (z : Z) (x : float) : outcome float :=
  match float_of_int z with
  | Returned f => Returned (PrimFloat.mul f x)
  | Raised e => Raised e
  end.

Definition int_add_float (z : Z) (x : float) : outcome float :=
  match float_of_int z with
  | Returned f => Returned (PrimFloat.add f x)
  | Raised e => Raised e
  end.

(** [z <= x] for an [int] and a [float]: Python compares the two values
    exactly, without converting the integer. *)
Definition int_le_float (z : Z) (x : float) : bool :=
  match Prim2SF x with
  | S754_nan => false
  | S754_infinity s => negb s
  | S754_zero _ => z <=? 0
  | S754_finite s m e =>
      let v := cond_Zopp s (Zpos m) in
      if 0 <=? e then z <=? v * 2 ^ e else z * 2 ^ (- e) <=? v
  end.

(** The integer nearest to [n / d] ([0 < d]), ties to even. *)
Definition round_half_even (n d : Z) : Z :=
  let q := n / d in
  let r := n mod d in
  if 2 * r <? d then q
  else if d <? 2 * r then q + 1
  else if Z.even q then q else q + 1.

(** The float nearest to [(-1)^s * n / d]. *)
Definition nearest_float (s : bool) (n : Z) (d : positive) : float :=
  match n with
  | Zpos p =>
      SF2Prim (SFdiv prec emax (S754_finite s p 0) (S754_finite false d 0))
  | _ => SF2Prim (S754_zero s)
  end.

(** [round(x, ndigits)] for a float and [0 <= ndigits]: the exact value of
    [x] is rounded to [ndigits] decimals, ties to even, and the decimal
    obtained is read back as the nearest float.  Infinities, NaN, zeros and
    integral values round to themselves. *)
Definition float_round (x : float) (ndigits : nat) : float :=
  match Prim2SF x with
  | S754_finite s m e =>
      if 0 <=? e then x
      else
        let scale := Z.to_pos (10 ^ Z.of_nat ndigits) in
        nearest_float s (round_half_even (Zpos (m * scale)) (2 ^ (- e))) scale
  | _ => x
  end.

(** [float(s)] for a text [d.d] of two digits: the float nearest to the
    decimal. *)
Definition float_of_digits (d1 d2 : Z) : float :=
  nearest_float false (10 * d1 + d2) 10.

(** ** Regular expressions

    The three patterns of the source are sequences of quantified character
    classes with at most one capture group; [match_here] is the backtracking
    matcher of [re] on such sequences (greedy quantifiers: the longest
    repetition first). *)
Inductive quant := One | Opt | Star | Plus.

Record item := Item {
  in_group : bool;
  cls : char -> bool;
  qnt : quant
}.

Section Matcher.
Variable it : item.
(** What the rest of the pattern does with the rest of the text: the text
    of group 1 and what is left after the match. *)
Variable k : text -> option (text * text).

Definition emit (seg : text) (r : option (text * text)) : option (text * text) :=
  match r with
  | Some (g, rest) => Some (if in_group it then seg ++ g else g, rest)
  | None => None
  end.

Definition skip (s : text) : option (text * (text * text)) :=
  match k s with Some r => Some ([], r) | None => None end.

Fixpoint star (s : text) : option (text * (text * text)) :=
  match s with
  | c :: s' =>
      if cls it c then
        match star s' with
        | Some (seg, r) => Some (c :: seg, r)
        | None => skip s
        end
      else skip s
  | [] => skip s
  end.

Definition match_item (s : text) : option (text * text) :=
  match qnt it with
  | One =>
      match s with
      | c :: s' => if cls it c then emit [c] (k s') else None
      | [] => None
      end
  | Opt =>
      match s with
      | c :: s' =>
          if cls it c then
            match emit [c] (k s') with
            | Some r => Some r
            | None => emit [] (k s)
            end
          else emit [] (k s)
      | [] => emit [] (k s)
      end
  | Star =>
      match star s with
      | Some (seg, r) => emit seg (Some r)
      | None => None
      end
  | Plus =>
      match s with
      | c :: s' =>
          if cls it c then
            match star s' with
            | Some (seg, r) => emit (c :: seg) (Some r)
            | None => None
            end
          else None
      | [] => None
      end
  end.
End Matcher.

Fixpoint match_here (p : list item) : text -> option (text * text) :=
  match p with
  | [] => fun s => Some ([], s)
  | it :: p' => match_item it (match_here p')
  end.

(** [re.search(p, s).group(1)], or [None] when nothing matches: the
    leftmost match. *)
Fixpoint re_search (p : list item) (s : text) : option text :=
  match match_here p s with
  | Some (g, _) => Some g
  | None =>
      match s with
      | [] => None
      | _ :: s' => re_search p s'
      end
  end.

(** [re.sub(p, "", s)] for a pattern anchored by [^] that cannot match the
    empty text: only a match at the start is replaced. *)
Definition re_sub_start (p : list item) (s : text) : text :=
  match match_here p s with
  | Some (_, rest) => rest
  | None => s
  end.

Definition is_char (c : char) : char -> bool := N.eqb c.

Section Strings.
Variable U : unicode.

(** [^\d+\.\s*] *)
Definition ordinal_pattern : list item :=
  [Item false (isdecimal U) Plus; Item false (is_char 46) One;
   Item false (isspace U) Star].

(** [₹\s?([\d,]+)]; the rupee sign is U+20B9. *)
Definition price_pattern : list item :=
  [Item false (is_char 8377) One; Item false (isspace U) Opt;
   Item true (fun c => isdecimal U c || is_char 44 c) Plus].

(** [(\d\.\d)] *)
Definition rating_pattern : list item :=
  [Item true (isdecimal U) One; Item true (is_char 46) One;
   Item true (isdecimal U) One].

Fixpoint lstrip (s : text) : text :=
  match s with
  | c :: s' => if isspace U c then lstrip s' else s
  | [] => []
  end.

(** [s.strip()] *)
Definition strip (s : text) : text := rev (lstrip (rev (lstrip s))).

(** [s.replace(old, new)] for single characters. *)
Definition replace_char (old new : char) (s : text) : text :=
  map (fun c => if N.eqb c old then new else c) s.

(** [s.replace(",", "")] *)
Definition remove_commas (s : text) : text :=
  List.filter (fun c => negb (is_char 44 c)) s.

Fixpoint digits_value (acc : Z) (s : text) : option Z :=
  match s with
  | [] => Some acc
  | c :: s' =>
      match todecimal U c with
      | Some d => digits_value (10 * acc + d) s'
      | None => None
      end
  end.

(** [repr(s)] of a [str]: single quotes, unless the text holds a single
    quote and no double quote; the quote and the backslash escaped; tab,
    line feed and carriage return as [\t], [\n], [\r]; the other control
    characters and the characters that are not printable in hexadecimal. *)
Definition hex_digit (n : N) : char :=
  (if n <? 10 then 48 + n else 87 + n)%N.

Definition hex_fixed (width : nat) (c : char) : text :=
  map (fun i => hex_digit ((c / 16 ^ N.of_nat i) mod 16)%N) (rev (seq 0 width)).

Definition repr_char (quote c : char) : text :=
  if (N.eqb c quote || N.eqb c 92)%bool then [92%N; c]
  else if N.eqb c 9 then str "\t"
  else if N.eqb c 10 then str "\n"
  else if N.eqb c 13 then str "\r"
  else if ((c <? 32) || N.eqb c 127)%N then str "\x" ++ hex_fixed 2 c
  else if (c <? 127)%N then [c]
  else if isprintable U c then [c]
  else if (c <? 256)%N then str "\x" ++ hex_fixed 2 c
  else if (c <? 65536)%N then str "\u" ++ hex_fixed 4 c
  else str "\U" ++ hex_fixed 8 c.

Definition py_repr (s : text) : text :=
  let quote :=
    if existsb (N.eqb 39) s && negb (existsb (N.eqb 34) s) then 34%N else 39%N in
  [quote] ++ flat_map (repr_char quote) s ++ [quote].

(** The [ValueError] of [int] and [float] on a text they reject. *)
Definition invalid_literal (what : string) (s : text) : exn :=
  Exn ValueError (str what ++ py_repr s).

(** The [ValueError] of [int] on more digits than the interpreter
    converts. *)
Definition too_many_digits (s : text) : exn :=
  Exn ValueError
    (str "Exceeds the limit (4300 digits) for integer string conversion: value has "
     ++ str (NilZero.string_of_uint (Nat.to_uint (length s)))
     ++ str " digits; use sys.set_int_max_str_digits() to increase the limit").

(** [int(s)] on a text of digits: [ValueError] on the empty text, and on
    more than 4300 digits (the interpreter's limit on conversions). *)
Definition int_of_text (s : text) : outcome Z :=
  match s with
  | [] => Raised (invalid_literal "invalid literal for int() with base 10: " s)
  | _ =>
      if (4300 <? length s)%nat
      then Raised (too_many_digits s)
      else
        match digits_value 0 s with
        | Some v => Returned v
        | None => Raised (invalid_literal "invalid literal for int() with base 10: " s)
        end
  end.

(** [float(s)] on a text matched by [rating_pattern]. *)
Definition float_of_text (s : text) : outcome float :=
  match s with
  | [c1; dot; c2] =>
      match todecimal U c1, todecimal U c2 with
      | Some d1, Some d2 =>
          if is_char 46 dot then Returned (float_of_digits d1 d2)
          else Raised (invalid_literal "could not convert string to float: " s)
      | _, _ => Raised (invalid_literal "could not convert string to float: " s)
      end
  | _ => Raised (invalid_literal "could not convert string to float: " s)
  end.

(** [needle in hay] *)
Fixpoint starts_with (needle hay : text) : bool :=
  match needle, hay with
  | [], _ => true
  | _ :: _, [] => false
  | c :: n', d :: h' => N.eqb c d && starts_with n' h'
  end.

Fixpoint contains (hay needle : text) : bool :=
  starts_with needle hay ||
  match hay with
  | [] => false
  | _ :: h' => contains h' needle
  end.
End Strings.

(** ** The random source

    [randbelow n] is [random._randbelow(n)] for [0 < n]: some number below
    [n], here the next draw of the tape reduced modulo [n]. *)
Definition advance (s : state) : state :=
  State (tape s) (S (cursor s)) (stdout s).

(** The state [n] draws later. *)
Definition after_draws (n : nat) (s : state) : state :=
  State (tape s) (cursor s + n) (stdout s).

Definition next_draw : M N :=
  fun s => (Returned (tape s (cursor s)), advance s).

Definition randbelow (n : Z) : M Z :=
  (r <- next_draw ;; ret (Z.of_N r mod n))%py.

(** [random.random()]: a multiple of [2^-53] in [[0, 1)]. *)
Definition random_random : M float :=
  (j <- randbelow (2 ^ 53) ;;
   ret (PrimFloat.div (SF2Prim (binary_normalize prec emax j 0 false))
          0x1p53))%py.

(** [random.uniform(a, b)] is [a + (b - a) * random()]. *)
Definition random_uniform (a b : float) : M float :=
  (r <- random_random ;;
   ret (PrimFloat.add a (PrimFloat.mul (PrimFloat.sub b a) r)))%py.

(** [random.randint(a, b)] is [a + _randbelow(b - a + 1)]. *)
Definition random_randint (a b : Z) : M Z :=
  (r <- randbelow (b - a + 1) ;; ret (a + r))%py.

(** [random.choice(seq)] *)
Definition random_choice {A} (seq : list A) : M A :=
  match seq with
  | [] => raise (Exn IndexError (str "Cannot choose from an empty sequence"))
  | x :: _ =>
      (i <- randbelow (Z.of_nat (length seq)) ;;
       ret (nth (Z.to_nat i) seq x))%py
  end.

(** [x[i], x[j] = x[j], x[i]] *)
Definition swap {A} (x : list A) (i j : nat) : list A :=
  match x !! j, x !! i with
  | Some xj, Some xi => <[j := xi]> (<[i := xj]> x)
  | _, _ => x
  end.

(** [random.shuffle(x)]:
    [for i in reversed(range(1, len(x))): j = randbelow(i + 1); swap]. *)
Fixpoint shuffle_from {A} (i : nat) (x : list A) : M (list A) :=
  match i with
  | O => ret x
  | S i' =>
      (j <- randbelow (Z.of_nat i + 1) ;;
       shuffle_from i' (swap x i (Z.to_nat j)))%py
  end.

Definition random_shuffle {A} (x : list A) : M (list A) :=
  shuffle_from (length x - 1) x.

(** ** The network and the HTML parser *)

(** What [requests.get] returns. *)
Record response := Response {
  status_code : Z;
  resp_text : text
}.

(** A listing card, as the selectors of the source see it. *)
Record card := Card {
  (** [card.select_one("h3.card-heading, h2.card-heading, a.card-heading")],
      read by [get_text(strip=True)] *)
  name_tag : option text;
  (** [card.select_one("div.price, span[data-testid='price'], span.price,
      div.hotelPrice")], read by [get_text(strip=True)] *)
  price_tag : option text;
  (** [card.get_text(" ", strip=True)] *)
  card_text_spaced : text;
  (** [card.get_text()] *)
  card_text : text
}.

(** [http_get url] is [requests.get(url, headers=..., timeout=15)];
    [select_headings page] is the text of each tag that
    [BeautifulSoup(page, "html.parser").select("h3.card-heading,
    h2.card-heading")] finds, and [select_cards page] the cards that
    [select("div.card, div.hotelCard, div.card-content")] finds.  Each may
    raise.  [stdout_write chunk] is [sys.stdout.write(chunk)]: it raises
    when the stream refuses the chunk, as with [UnicodeEncodeError] when the
    encoding of the stream lacks one of its characters. *)
Record world := World {
  http_get : text -> outcome response;
  select_headings : text -> outcome (list text);
  select_cards : text -> outcome (list card);
  stdout_write : text -> outcome unit
}.

Record hotel := MkHotel {
  name : text;
  price : Z;
  rating : float
}.

Definition fallback_hotels : list hotel :=
  [MkHotel (str "Budget Stay") 1200 3.9;
   MkHotel (str "Hotel Comfort Inn") 1400 4.2;
   MkHotel (str "City Lodge") 1000 4.0].

(** ** The fetchers *)
Section Fetchers.
Variable U : unicode.
Variable W : world.

(** [dest.lower().replace(' ', '-')] *)
Definition slug (dest : text) : text := replace_char 32 45 (lower U dest).

Definition attractions_url (dest : text) : text :=
  str "https://www.holidify.com/places/" ++ slug dest
    ++ str "/sightseeing-and-things-to-do.html".

Definition hotels_url (dest : text) : text :=
  str "https://www.holidify.com/places/" ++ slug dest
    ++ str "/hotels-where-to-stay.html".

(** The loop over [attractions] that fills [clean]. *)
Fixpoint clean_loop (attractions clean : list text) : list text :=
  match attractions with
  | [] => clean
  | a :: rest =>
      let a := strip U (re_sub_start (ordinal_pattern U) a) in
      if (2 <? length a)%nat then clean_loop rest (clean ++ [a])
      else clean_loop rest clean
  end.

(** The body of the [try] block. *)
Definition attractions_try (dest : text) : M (list text) :=
  (resp <- lift (http_get W (attractions_url dest)) ;;
   if negb (status_code resp =? 200) then ret []
   else
     attractions <- lift (select_headings W (resp_text resp)) ;;
     ret (clean_loop attractions []))%py.

Definition scrape_holidify_attractions (dest : text) : M (list text) :=
  try_except (attractions_try dest) (fun _ => ret []).

(** [price_text] of a card, and the match of the price pattern in it. *)
Definition price_text (c : card) : text :=
  match price_tag c with
  | Some t => t
  | None => card_text_spaced c
  end.

Definition price_match (c : card) : option text :=
  re_search (price_pattern U) (price_text c).

(** One turn of the loop over [cards]. *)
Definition card_step (hotel_budget_per_day : float)
    (valid_hotels : list hotel) (c : card) : M (list hotel) :=
  match name_tag c with
  | None => ret valid_hotels
  | Some name =>
      match price_match c with
      | None => ret valid_hotels
      | Some g =>
          (price <- lift (int_of_text U (remove_commas g)) ;;
           rating <-
             match re_search (rating_pattern U) (card_text c) with
             | Some r => lift (float_of_text U r)
             | None => u <- random_uniform 3.5 4.8 ;; ret (float_round u 1)
             end ;;
           if int_le_float price hotel_budget_per_day
           then ret (valid_hotels ++ [MkHotel name price rating])
           else ret valid_hotels)%py
      end
  end.

Fixpoint cards_loop (hotel_budget_per_day : float) (cards : list card)
    (valid_hotels : list hotel) : M (list hotel) :=
  match cards with
  | [] => ret valid_hotels
  | c :: rest =>
      (valid_hotels <- card_step hotel_budget_per_day valid_hotels c ;;
       cards_loop hotel_budget_per_day rest valid_hotels)%py
  end.

(** The warning sign U+26A0 with its variation selector U+FE0F. *)
Definition hotel_warning : text :=
  [9888%N; 65039%N] ++ str " Hotel scraping error:".

(** Writing chunks one after the other; [written] is what the line holds
    so far.  When a write raises, what was written before stays written. *)
Fixpoint write_chunks (chunks : list text) (written : text) : M text :=
  match chunks with
  | [] => ret written
  | chunk :: rest =>
      fun s =>
        match stdout_write W chunk with
        | Returned _ => write_chunks rest (written ++ chunk) s
        | Raised x =>
            (Raised x,
             match written with
             | [] => s
             | _ => State (tape s) (cursor s) (stdout s ++ [written])
             end)
        end
  end.

(** [print(msg, e)]: each chunk is written in turn; once the end of line
    is written the line is in [stdout]. *)
Definition print (msg : text) (e : exn) : M unit :=
  fun s =>
    match write_chunks (print_chunks msg e) [] s with
    | (Returned _, _) => (Returned tt, printed msg e s)
    | (Raised x, s') => (Raised x, s')
    end.

(** The body of the [try] block. *)
Definition hotels_try (dest : text) (budget days : Z) : M (list hotel) :=
  (resp <- lift (http_get W (hotels_url dest)) ;;
   if negb (status_code resp =? 200) then ret []
   else
     cards <- lift (select_cards W (resp_text resp)) ;;
     hotel_budget_per_day <- lift (int_mul_float budget 0.50) ;;
     valid_hotels <- cards_loop hotel_budget_per_day cards [] ;;
     let valid_hotels :=
       match valid_hotels with
       | [] => fallback_hotels
       | _ => valid_hotels
       end in
     ret (take 10 valid_hotels))%py.

Definition scrape_holidify_hotels (dest : text) (budget days : Z)
    : M (list hotel) :=
  try_except (hotels_try dest budget days)
    (fun e => print hotel_warning e ;;; ret [])%py.

(** The price the loop reads on a card: [None] when the card is skipped
    (no name, or no price in its text), otherwise what [int] gives. *)
Definition card_price (c : card) : option (outcome Z) :=
  match name_tag c with
  | None => None
  | Some _ =>
      match price_match c with
      | None => None
      | Some g => Some (int_of_text U (remove_commas g))
      end
  end.
End Fetchers.

(** ** The keyword filter *)

Definition category_keywords : gmap text (list text) :=
  list_to_map
    [(str "historical",
      map str ["fort"; "palace"; "temple"; "monument"; "heritage"; "gate"; "tomb"]);
     (str "fun",
      map str ["beach"; "park"; "zoo"; "amusement"; "island"; "water"; "lake"]);
     (str "museum",
      map str ["museum"; "gallery"; "memorial"; "exhibition"; "centre"; "art"]);
     (str "nature",
      map str ["hill"; "mountain"; "valley"; "garden"; "wildlife"; "forest"; "sanctuary"])].

(** The loop [for pref in preferences:
    selected_keywords.extend(category_keywords.get(pref, []))]. *)
Fixpoint extend_keywords (preferences selected_keywords : list text) : list text :=
  match preferences with
  | [] => selected_keywords
  | pref :: rest =>
      extend_keywords rest
        (selected_keywords ++ default [] (category_keywords !! pref))
  end.

Section Filter.
Variable U : unicode.

(** [any(kw in a.lower() for kw in selected_keywords)] *)
Definition matches_any (selected_keywords : list text) (a : text) : bool :=
  existsb (fun kw => contains (lower U a) kw) selected_keywords.

Definition filter_attractions (attractions preferences : list text) : list text :=
  match preferences with
  | [] => attractions
  | _ =>
      if bool_decide (str "all" ∈ preferences) then attractions
      else
        let selected_keywords := extend_keywords preferences [] in
        let selected_keywords :=
          elements (list_to_set selected_keywords : gset text) in
        List.filter (matches_any selected_keywords) attractions
  end.
End Filter.

(** ** The plan *)

Record plan := Plan {
  Destination : text;
  Hotel : hotel;
  Hotel_Cost : Z;
  Food_Cost : Z;
  Transport : Z;
  Shopping : float;
  Total_Cost : float;
  Itinerary : list (text * list text)
}.

Definition default_attractions : list text :=
  map str ["Local Market Visit"; "City Park"; "Sunset Point"; "Cultural Walk"].

(** [if not attractions: attractions = [...]] *)
Definition default_if_empty (attractions : list text) : list text :=
  match attractions with
  | [] => default_attractions
  | _ => attractions
  end.

(** [a // b] on integers; Rocq's [Z.div] rounds down as Python's does. *)
Definition floordiv (a b : Z) : outcome Z :=
  if b =? 0
  then Raised (Exn ZeroDivisionError (str "integer division or modulo by zero"))
  else Returned (a / b).

(** [range(n)] *)
Definition range (n : Z) : list Z := map Z.of_nat (seq 0 (Z.to_nat n)).

(** [l[lo:hi]]: a negative bound counts from the end, and both are clamped
    to the list. *)
Definition slice_bound (len k : Z) : Z :=
  if k <? 0 then Z.max 0 (k + len) else Z.min k len.

Definition py_slice {A} (l : list A) (lo hi : Z) : list A :=
  let len := Z.of_nat (length l) in
  let lo := slice_bound len lo in
  let hi := slice_bound len hi in
  take (Z.to_nat (hi - lo)) (drop (Z.to_nat lo) l).

(** [str(z)] *)
Definition int_to_text (z : Z) : text :=
  str (NilZero.string_of_int (Z.to_int z)).

(** [f"Day {i+1}"] *)
Definition day_label (i : Z) : text := str "Day " ++ int_to_text (i + 1).

(** A [dict] in insertion order; [dict_set d k v] is [d[k] = v]. *)
Fixpoint dict_set {V} (d : list (text * V)) (k : text) (v : V) : list (text * V) :=
  match d with
  | [] => [(k, v)]
  | (k', v') :: d' =>
      if decide (k' = k) then (k', v) :: d' else (k', v') :: dict_set d' k v
  end.

Fixpoint dict_get {V} (d : list (text * V)) (k : text) : option V :=
  match d with
  | [] => None
  | (k', v) :: d' => if decide (k' = k) then Some v else dict_get d' k
  end.

(** [{f"Day {i+1}": attractions[i*per_day:(i+1)*per_day] for i in range(days)}] *)
Definition itinerary_of (attractions : list text) (per_day days : Z)
    : list (text * list text) :=
  fold_left
    (fun d i =>
       dict_set d (day_label i)
         (py_slice attractions (i * per_day) ((i + 1) * per_day)))
    (range days) [].

Section Planner.
Variable U : unicode.
Variable W : world.

Definition generate_plan (destination : text) (budget days : Z)
    (preferences : list text) (food_type : text) : M plan :=
  (attractions <- scrape_holidify_attractions U W destination ;;
   hotels <- scrape_holidify_hotels U W destination budget days ;;
   let attractions := filter_attractions U attractions preferences in
   let attractions := default_if_empty attractions in
   hotel <- random_choice hotels ;;
   let hotel_cost := price hotel in
   food_cost <-
     (if bool_decide (food_type = str "vegetarian")
      then random_randint 400 700 else random_randint 600 900) ;;
   transport <- random_randint 600 2000 ;;
   budget30 <- lift (int_mul_float budget 0.30) ;;
   let shopping_tours := float_round budget30 2 in
   let total_core := hotel_cost * days + food_cost * days + transport in
   total_trip_cost <- lift (int_add_float total_core shopping_tours) ;;
   attractions <- random_shuffle attractions ;;
   quotient <- lift (floordiv (Z.of_nat (length attractions)) days) ;;
   let per_day := Z.max 1 quotient in
   let itinerary := itinerary_of attractions per_day days in
   ret {| Destination := destination;
          Hotel := hotel;
          Hotel_Cost := hotel_cost;
          Food_Cost := food_cost;
          Transport := transport;
          Shopping := shopping_tours;
          Total_Cost := total_trip_cost;
          Itinerary := itinerary |})%py.
End Planner.

(** ** Sample inputs *)

Definition connection_error : exn :=
  Exn (LibraryError (str "ConnectionError")) (str "Max retries exceeded").

(** Every request fails; the standard output accepts everything. *)
Definition network_down : world :=
  World (fun _ => Raised connection_error)
        (fun _ => Returned []) (fun _ => Returned [])
        (fun _ => Returned tt).

(** Every request is answered by [status] and a page in which the selectors
    find the given headings and cards; the standard output accepts
    everything. *)
Definition site (status : Z) (headings : list text) (cards : list card) : world :=
  World (fun _ => Returned (Response status []))
        (fun _ => Returned headings) (fun _ => Returned cards)
        (fun _ => Returned tt).

(** A standard output encoded in Latin-1, as when the output is redirected
    under such a locale: a chunk with a character beyond U+00FF is
    refused.  The message is the one for the warning of the hotel fetcher,
    whose first two characters are beyond U+00FF. *)
Definition latin1_error : exn :=
  Exn UnicodeEncodeError
    (str "'latin-1' codec can't encode characters in position 0-1: ordinal not in range(256)").

Definition latin1_write (chunk : text) : outcome unit :=
  if forallb (fun c => (c <? 256)%N) chunk then Returned tt
  else Raised latin1_error.

(** Every request fails, and the standard output is encoded in Latin-1. *)
Definition network_down_latin1 : world :=
  World (fun _ => Raised connection_error)
        (fun _ => Returned []) (fun _ => Returned [])
        latin1_write.

Definition rupee (s : string) : text := 8377%N :: str s.

Definition goa_headings : list text :=
  map str ["1. Baga Beach"; "2. Fort Aguada"; "3. Dudhsagar Falls";
           "4. Anjuna Flea Market"; "5. Salim Ali Bird Sanctuary";
           "6. Butterfly Conservatory Garden"; "7"].

Definition goa_cards : list card :=
  [Card (Some (str "Sea View Resort")) (Some (rupee " 4,500")) (str "") (str "Sea View Resort 4.5");
   Card (Some (str "Palm Grove Hostel")) None (str "Palm Grove Hostel " ++ rupee "899 onwards") (str "Palm Grove Hostel");
   Card None (Some (rupee "700")) (str "") (str "");
   Card (Some (str "Grand Palace")) (Some (rupee "25,000")) (str "") (str "Grand Palace 4.9");
   Card (Some (str "No Price Inn")) None (str "No Price Inn") (str "No Price Inn")].

(** What [scrape_holidify_attractions] makes of [goa_headings]. *)
Definition goa_attractions : list text :=
  map str ["Baga Beach"; "Fort Aguada"; "Dudhsagar Falls";
           "Anjuna Flea Market"; "Salim Ali Bird Sanctuary";
           "Butterfly Conservatory Garden"].

Definition goa : world := site 200 goa_headings goa_cards.

(** A page on which the selectors find nothing. *)
Definition blank_page : world := site 200 [] [].

Definition sample_tape (n : nat) : N := N.of_nat (7 * n + 3).

Definition start : state := State sample_tape 0 [].

(** ** Notions used to state further properties *)

(** What one turn of [clean_loop] makes of a heading. *)
Definition clean_heading (U : unicode) (a : text) : text :=
  strip U (re_sub_start (ordinal_pattern U) a).

(** A card the loop keeps: it has a name, a price that [int] reads, and the
    price is within the ceiling. *)
Definition qualifies (U : unicode) (ceiling : float) (c : card) : bool :=
  match card_price U c with
  | Some (Returned p) => int_le_float p ceiling
  | _ => false
  end.

(** A hotel read from a card: same name, same price. *)
Definition read_from (U : unicode) (h : hotel) (c : card) : Prop :=
  name_tag c = Some (name h) /\ card_price U c = Some (Returned (price h)).

(** Cards of which the second has a price text that [int] rejects. *)
Definition cards_with_bad_price : list card :=
  [Card (Some (str "Sea View Resort")) (Some (rupee " 4,500")) (str "") (str "Sea View Resort 4.5");
   Card (Some (str "Comma Inn")) (Some (rupee ",")) (str "") (str "Comma Inn 4.0");
   Card (Some (str "Palm Grove Hostel")) (Some (rupee "899")) (str "") (str "Palm Grove Hostel 4.1")].

(** Twelve cards that all qualify for a budget of 20000. *)
Definition twelve_cards : list card :=
  map (fun i => Card (Some (str "Hotel " ++ int_to_text i))
                     (Some (rupee "1,0" ++ int_to_text (10 + i)))
                     (str "") (str "4.0"))
      (range 12).

(** * Properties *)

(** ** The monad *)

Lemma bind_returned {A B} (c : M A) (k : A -> M B) s b s' :
  bind c k s = (Returned b, s') ->
  exists a s1, c s = (Returned a, s1) /\ k a s1 = (Returned b, s').
Proof.
  unfold bind. destruct (c s) as [[a|e] s1]; intros H.
  - eauto.
  - discriminate.
Qed.

Lemma bind_raised {A B} (c : M A) (k : A -> M B) s e s' :
  c s = (Raised e, s') -> bind c k s = (Raised e, s').
Proof. unfold bind. intros ->. reflexivity. Qed.

Lemma bind_step {A B} (c : M A) (k : A -> M B) s a s1 :
  c s = (Returned a, s1) -> bind c k s = k a s1.
Proof. unfold bind. intros ->. reflexivity. Qed.

Lemma lift_returned {A} (o : outcome A) s a s' :
  lift o s = (Returned a, s') -> o = Returned a /\ s' = s.
Proof. unfold lift. intros [= -> ->]. auto. Qed.

Lemma ret_returned {A} (a b : A) s s' :
  ret a s = (Returned b, s') -> b = a /\ s' = s.
Proof. unfold ret. intros [= -> ->]. auto. Qed.

(** Peel the binds of a run that returned. *)
Ltac inv_run H :=
  repeat match type of H with
    | bind _ _ _ = (Returned _, _) =>
        let a := fresh "a" in
        let s := fresh "s" in
        let H1 := fresh "Hrun" in
        apply bind_returned in H; destruct H as (a & s & H1 & H)
    end.

(** ** Substrings *)

Lemma starts_with_spec needle hay :
  starts_with needle hay = true <-> exists post, hay = needle ++ post.
Proof.
  revert hay. induction needle as [|c n IH]; intros hay; simpl.
  - split; eauto.
  - destruct hay as [|d h].
    + split; [discriminate | intros [post [=]]].
    + rewrite andb_true_iff, N.eqb_eq, IH. split.
      * intros [-> [post ->]]. eauto.
      * intros [post [= -> ->]]. eauto.
Qed.

Lemma contains_spec hay needle :
  contains hay needle = true <->
  exists pre post, hay = pre ++ needle ++ post.
Proof.
  induction hay as [|d h IH]; simpl.
  - rewrite orb_false_r, starts_with_spec. split.
    + intros [post ->]. exists [], post. reflexivity.
    + intros (pre & post & H). symmetry in H.
      apply app_eq_nil in H as [-> H]. apply app_eq_nil in H as [-> ->].
      exists []. reflexivity.
  - rewrite orb_true_iff, starts_with_spec, IH. split.
    + intros [[post ->] | (pre & post & ->)].
      * exists [], post. reflexivity.
      * exists (d :: pre), post. reflexivity.
    + intros (pre & post & H). destruct pre as [|c pre]; simpl in H.
      * left. eauto.
      * injection H as -> ->. right. eauto.
Qed.

(** ** [filter_attractions] *)

Lemma extend_keywords_spec preferences selected kw :
  kw ∈ extend_keywords preferences selected <->
  kw ∈ selected \/
  exists pref kws,
    pref ∈ preferences /\ category_keywords !! pref = Some kws /\ kw ∈ kws.
Proof.
  revert selected. induction preferences as [|p ps IH]; intros selected; simpl.
  - split; [auto |]. intros [H | (pref & kws & H & _)]; [done |].
    by apply elem_of_nil in H.
  - rewrite IH, elem_of_app. split.
    + intros [[H | H] | (pref & kws & Hp & Hk & Hkw)].
      * auto.
      * right. destruct (category_keywords !! p) as [kws|] eqn:E; simpl in H.
        -- exists p, kws. split; [left | done].
        -- by apply elem_of_nil in H.
      * right. exists pref, kws. split; [by right | done].
    + intros [H | (pref & kws & Hp & Hk & Hkw)]; [auto |].
      apply elem_of_cons in Hp as [-> | Hp].
      * left. right. by rewrite Hk.
      * right. eauto.
Qed.

Lemma filter_attractions_selected U attractions preferences :
  preferences <> [] -> str "all" ∉ preferences ->
  filter_attractions U attractions preferences =
  List.filter
    (matches_any U
       (elements (list_to_set (extend_keywords preferences []) : gset text)))
    attractions.
Proof.
  intros Hne Hall. unfold filter_attractions.
  destruct preferences; [done |].
  by rewrite bool_decide_eq_false_2.
Qed.

Lemma category_keywords_unknown pref :
  pref ∉ map str ["historical"; "fun"; "museum"; "nature"] ->
  category_keywords !! pref = None.
Proof.
  intros H. apply not_elem_of_list_to_map_1. exact H.
Qed.

Lemma extend_keywords_unknown preferences selected :
  (forall pref, pref ∈ preferences ->
     pref ∉ map str ["historical"; "fun"; "museum"; "nature"]) ->
  extend_keywords preferences selected = selected.
Proof.
  revert selected. induction preferences as [|p ps IH]; intros selected H; simpl.
  - reflexivity.
  - rewrite category_keywords_unknown by (apply H; left).
    simpl. rewrite app_nil_r. apply IH. intros pref Hp. apply H. by right.
Qed.

Lemma filter_none {A} (f : A -> bool) (l : list A) :
  (forall a, f a = false) -> List.filter f l = [].
Proof.
  intros H. induction l as [|a l IH]; simpl; [done |]. by rewrite H.
Qed.

(** C6.  With no preference, or with ["all"] among the preferences,
    [filter_attractions] returns its input unchanged. *)
Theorem filter_attractions_identity U (attractions preferences : list text) :
  preferences = [] \/ str "all" ∈ preferences ->
  filter_attractions U attractions preferences = attractions.
Proof.
  intros [-> | Hall]; [reflexivity |].
  unfold filter_attractions. destruct preferences; [reflexivity |].
  by rewrite bool_decide_eq_true_2.
Qed.

Lemma filter_attractions_identity_witness :
  (str "all" ∈ [str "fun"; str "all"]) /\
  filter_attractions ascii_tables goa_headings [str "fun"; str "all"]
  = goa_headings.
Proof.
  assert (H : str "all" ∈ [str "fun"; str "all"]) by (right; left).
  split; [exact H |].
  apply (filter_attractions_identity ascii_tables goa_headings
           [str "fun"; str "all"]).
  right. exact H.
Defined.

(** C5.  With a non-empty preference list that does not hold ["all"], every
    attraction that [filter_attractions] keeps is one of the input and its
    lower-cased text contains, as a substring, a keyword of one of the
    selected categories. *)
Theorem filter_attractions_keyword U (attractions preferences : list text) a :
  preferences <> [] -> str "all" ∉ preferences ->
  a ∈ filter_attractions U attractions preferences ->
  a ∈ attractions /\
  exists pref kws kw,
    pref ∈ preferences /\ category_keywords !! pref = Some kws /\ kw ∈ kws /\
    exists pre post, lower U a = pre ++ kw ++ post.
Proof.
  intros Hne Hall Ha. rewrite filter_attractions_selected in Ha by done.
  apply list_elem_of_In, filter_In in Ha as [Hin Hm].
  split; [by apply list_elem_of_In |].
  unfold matches_any in Hm. apply existsb_exists in Hm as (kw & Hkw & Hc).
  apply list_elem_of_In, elem_of_elements, elem_of_list_to_set in Hkw.
  apply extend_keywords_spec in Hkw as [Hkw | (pref & kws & Hp & Hk & Hkw)].
  - by apply elem_of_nil in Hkw.
  - exists pref, kws, kw. repeat split; try done.
    by apply contains_spec.
Qed.

Lemma filter_attractions_keyword_witness :
  str "Fort Aguada" ∈
    filter_attractions ascii_tables (map str ["Baga Beach"; "Fort Aguada"])
      [str "historical"] /\
  exists pref kws kw,
    pref ∈ [str "historical"] /\ category_keywords !! pref = Some kws /\
    kw ∈ kws /\
    exists pre post, lower ascii_tables (str "Fort Aguada") = pre ++ kw ++ post.
Proof.
  assert (H : str "Fort Aguada" ∈
                filter_attractions ascii_tables
                  (map str ["Baga Beach"; "Fort Aguada"]) [str "historical"])
    by (vm_compute; left).
  split; [exact H |].
  refine (proj2 (filter_attractions_keyword ascii_tables
                   (map str ["Baga Beach"; "Fort Aguada"]) [str "historical"]
                   (str "Fort Aguada") _ _ H)).
  - discriminate.
  - intros Hall. apply list_elem_of_singleton in Hall. discriminate.
Defined.

(** C9.  With a non-empty preference list that does not hold ["all"] and
    none of whose labels is a known category, [filter_attractions] returns
    the empty list. *)
Theorem filter_attractions_unknown U (attractions preferences : list text) :
  preferences <> [] -> str "all" ∉ preferences ->
  (forall pref, pref ∈ preferences ->
     pref ∉ map str ["historical"; "fun"; "museum"; "nature"]) ->
  filter_attractions U attractions preferences = [].
Proof.
  intros Hne Hall Hunknown. rewrite filter_attractions_selected by done.
  rewrite extend_keywords_unknown by done.
  change (list_to_set [] : gset text) with (∅ : gset text).
  rewrite elements_empty. by apply filter_none.
Qed.

Lemma filter_attractions_unknown_witness :
  filter_attractions ascii_tables goa_headings [str "beaches"; str "Nature"] = [].
Proof.
  apply (filter_attractions_unknown ascii_tables goa_headings
           [str "beaches"; str "Nature"]).
  - discriminate.
  - intros H. repeat (apply elem_of_cons in H as [H | H]; [discriminate |]).
    by apply elem_of_nil in H.
  - intros pref Hp H.
    repeat (apply elem_of_cons in Hp as [-> | Hp];
            [repeat (apply elem_of_cons in H as [H | H]; [discriminate |]);
             by apply elem_of_nil in H |]).
    by apply elem_of_nil in Hp.
Defined.

(** ** The random source *)

Lemma randbelow_run n s :
  randbelow n s = (Returned (Z.of_N (tape s (cursor s)) mod n), advance s).
Proof. reflexivity. Qed.

Lemma random_uniform_run a b s :
  exists u, random_uniform a b s = (Returned u, advance s).
Proof. eexists. reflexivity. Qed.

Lemma stdout_advance s : stdout (advance s) = stdout s.
Proof. reflexivity. Qed.

(** ** The fetchers *)
Section FetcherFacts.
Variable U : unicode.
Variable W : world.

(** The attraction fetcher returns whatever the network and the parser
    do, and touches neither the random source nor the output. *)
Lemma scrape_holidify_attractions_returns dest s :
  exists l, scrape_holidify_attractions U W dest s = (Returned l, s).
Proof.
  unfold scrape_holidify_attractions, try_except, attractions_try, bind, lift.
  destruct (http_get W _) as [resp|e]; [| eexists; reflexivity].
  destruct (negb _); [eexists; reflexivity |].
  destruct (select_headings W _); eexists; reflexivity.
Qed.

Lemma attractions_try_state dest s o s1 :
  attractions_try U W dest s = (o, s1) -> s1 = s.
Proof.
  unfold attractions_try, bind, lift.
  destruct (http_get W _) as [resp|e]; [| by intros [= _ <-]].
  destruct (negb _); [by intros [= _ <-] |].
  destruct (select_headings W _); by intros [= _ <-].
Qed.

(** A text matched by the rating pattern is read by [float]. *)
Lemma rating_match_here s g rest :
  match_here (rating_pattern U) s = Some (g, rest) ->
  exists x, float_of_text U g = Returned x.
Proof.
  unfold float_of_text.
  destruct s as [|c1 [|c2 [|c3 s]]];
    unfold match_here, rating_pattern, match_item, emit, isdecimal;
    cbn [qnt cls in_group app];
    repeat match goal with
      | |- context [todecimal U ?c] => destruct (todecimal U c) eqn:?
      | |- context [is_char 46 ?c] => destruct (is_char 46 c) eqn:?
      end;
    try discriminate.
  intros [= <- <-].
  repeat match goal with H : _ = _ |- _ => rewrite H end.
  eauto.
Qed.

Lemma rating_search s g :
  re_search (rating_pattern U) s = Some g ->
  exists x, float_of_text U g = Returned x.
Proof.
  induction s as [|c s IH]; cbn [re_search].
  - destruct (match_here (rating_pattern U) []) as [[g' rest]|] eqn:E;
      [| discriminate].
    intros [= <-]. eapply rating_match_here, E.
  - destruct (match_here (rating_pattern U) (c :: s)) as [[g' rest]|] eqn:E;
      [| exact IH].
    intros [= <-]. eapply rating_match_here, E.
Qed.

(** The rating drawn or read for a card: this step never raises. *)
Lemma rating_step c s :
  exists x s1,
    (match re_search (rating_pattern U) (card_text c) with
     | Some r => lift (float_of_text U r)
     | None => (u <- random_uniform 3.5 4.8 ;; ret (float_round u 1))%py
     end) s = (Returned x, s1) /\ stdout s1 = stdout s.
Proof.
  destruct (re_search _ _) as [r|] eqn:E.
  - destruct (rating_search _ _ E) as [x Hx].
    exists x, s. unfold lift. by rewrite Hx.
  - eexists _, _. split; reflexivity.
Qed.

(** One turn of the loop: the card is skipped, or raises in [int], or
    yields one hotel that is kept only under the ceiling. *)
Lemma card_step_cases ceiling acc c s :
  match card_price U c with
  | None => card_step U ceiling acc c s = (Returned acc, s)
  | Some (Raised e) => card_step U ceiling acc c s = (Raised e, s)
  | Some (Returned p) =>
      exists s1, stdout s1 = stdout s /\
        if int_le_float p ceiling
        then exists h, card_step U ceiling acc c s = (Returned (acc ++ [h]), s1)
                       /\ price h = p /\ name_tag c = Some (name h)
        else card_step U ceiling acc c s = (Returned acc, s1)
  end.
Proof.
  unfold card_price, card_step.
  destruct (name_tag c) as [nm|]; [| reflexivity].
  destruct (price_match U c) as [g|]; [| reflexivity].
  destruct (int_of_text U (remove_commas g)) as [p|e]; [| reflexivity].
  destruct (rating_step c s) as (x & s1 & Hx & Hout).
  exists s1. split; [exact Hout |].
  rewrite (bind_step _ _ s p s) by reflexivity.
  rewrite (bind_step _ _ s x s1) by exact Hx.
  destruct (int_le_float p ceiling).
  - exists (MkHotel nm p x). auto.
  - reflexivity.
Qed.
(** The loop only appends hotels under the ceiling, and prints nothing. *)
Lemma cards_loop_cases ceiling cards acc s :
  exists o s1,
    cards_loop U ceiling cards acc s = (o, s1) /\ stdout s1 = stdout s /\
    forall hs, o = Returned hs ->
      exists new, hs = acc ++ new /\
        Forall (fun h => int_le_float (price h) ceiling = true) new.
Proof.
  revert acc s. induction cards as [|c cards IH]; intros acc s; cbn [cards_loop].
  - exists (Returned acc), s. repeat split.
    intros hs [= <-]. exists []. by rewrite app_nil_r.
  - pose proof (card_step_cases ceiling acc c s) as Hc.
    destruct (card_price U c) as [[p|e]|].
    + destruct Hc as (s1 & Hout & Hc).
      destruct (int_le_float p ceiling) eqn:Hle.
      * destruct Hc as (h & Hrun & Hp & _).
        rewrite (bind_step _ _ _ _ _ Hrun).
        destruct (IH (acc ++ [h]) s1) as (o & s2 & Hloop & Hout2 & Hspec).
        exists o, s2. split; [exact Hloop |]. split; [congruence |].
        intros hs Ho. destruct (Hspec hs Ho) as (new & -> & Hnew).
        exists (h :: new). rewrite <- app_assoc. split; [done |].
        constructor; [by rewrite Hp | done].
      * rewrite (bind_step _ _ _ _ _ Hc).
        destruct (IH acc s1) as (o & s2 & Hloop & Hout2 & Hspec).
        exists o, s2. split; [exact Hloop |]. split; [congruence | done].
    + rewrite (bind_raised _ _ _ _ _ Hc).
      exists (Raised e), s. repeat split. discriminate.
    + rewrite (bind_step _ _ _ _ _ Hc). apply IH.
Qed.

(** When every card is skipped or priced above the ceiling, the loop
    keeps what it had. *)
Lemma cards_loop_none_qualifies ceiling cards acc s :
  (forall c, c ∈ cards ->
     card_price U c = None \/
     exists p, card_price U c = Some (Returned p) /\
               int_le_float p ceiling = false) ->
  exists s1, cards_loop U ceiling cards acc s = (Returned acc, s1).
Proof.
  revert s. induction cards as [|c cards IH]; intros s Hall; cbn [cards_loop].
  - by exists s.
  - pose proof (card_step_cases ceiling acc c s) as Hc.
    assert (Hrest : forall c', c' ∈ cards ->
              card_price U c' = None \/
              exists p, card_price U c' = Some (Returned p) /\
                        int_le_float p ceiling = false)
      by (intros c' Hc'; apply Hall; by right).
    destruct (Hall c) as [Hnone | (p & Hp & Hle)]; [left | |].
    + rewrite Hnone in Hc. rewrite (bind_step _ _ _ _ _ Hc). by apply IH.
    + rewrite Hp in Hc. destruct Hc as (s1 & _ & Hc). rewrite Hle in Hc.
      rewrite (bind_step _ _ _ _ _ Hc). by apply IH.
Qed.

Lemma hotels_try_stdout dest budget days s o s1 :
  hotels_try U W dest budget days s = (o, s1) -> stdout s1 = stdout s.
Proof.
  unfold hotels_try, bind, lift.
  destruct (http_get W _) as [resp|e]; [| by intros [= _ <-]].
  destruct (negb _); [by intros [= _ <-] |].
  destruct (select_cards W _) as [cards|e]; [| by intros [= _ <-]].
  destruct (int_mul_float budget _) as [ceiling|e]; [| by intros [= _ <-]].
  destruct (cards_loop_cases ceiling cards [] s) as (o' & s2 & -> & Hout & _).
  destruct o'; by intros [= _ <-].
Qed.

Lemma hotels_try_returned dest budget days s hs s1 :
  hotels_try U W dest budget days s = (Returned hs, s1) ->
  (length hs <= 10)%nat /\
  (hs = fallback_hotels \/
   forall h, h ∈ hs ->
     exists ceiling, int_mul_float budget 0.50 = Returned ceiling /\
                     int_le_float (price h) ceiling = true).
Proof.
  unfold hotels_try, bind, lift.
  destruct (http_get W _) as [resp|e]; [| discriminate].
  destruct (negb _).
  { intros [= <- _]. split; [simpl; lia |]. right. intros h Hh.
    by apply elem_of_nil in Hh. }
  destruct (select_cards W _) as [cards|e]; [| discriminate].
  destruct (int_mul_float budget _) as [ceiling|e]; [| discriminate].
  destruct (cards_loop_cases ceiling cards [] s) as (o' & s2 & -> & _ & Hspec).
  destruct o' as [valid|e]; [| discriminate].
  destruct (Hspec valid eq_refl) as (new & -> & Hnew). simpl.
  unfold ret. intros [= <- _]. split.
  { rewrite length_take. lia. }
  destruct new as [|h0 new]; [by left | right].
  intros h Hh. exists ceiling. split; [done |].
  apply elem_of_take in Hh as (i & Hi & _).
  apply list_elem_of_lookup_2 in Hi.
  rewrite Forall_forall in Hnew. by apply Hnew.
Qed.

(** With status 200, a parsed page and no card under the ceiling, the
    [try] block returns the fallback list. *)
Lemma hotels_try_fallback dest budget days s resp cards ceiling :
  http_get W (hotels_url U dest) = Returned resp ->
  status_code resp = 200 ->
  select_cards W (resp_text resp) = Returned cards ->
  int_mul_float budget 0.50 = Returned ceiling ->
  (forall c, c ∈ cards ->
     card_price U c = None \/
     exists p, card_price U c = Some (Returned p) /\
               int_le_float p ceiling = false) ->
  exists s1, hotels_try U W dest budget days s = (Returned fallback_hotels, s1).
Proof.
  intros Hget Hstatus Hcards Hceil Hall.
  destruct (cards_loop_none_qualifies ceiling cards [] s Hall) as (s1 & Hloop).
  exists s1. unfold hotels_try.
  rewrite (bind_step _ _ s resp s) by (unfold lift; by rewrite Hget).
  rewrite Hstatus. change (negb (200 =? 200)) with false. cbv iota.
  rewrite (bind_step _ _ s cards s) by (unfold lift; by rewrite Hcards).
  rewrite (bind_step _ _ s ceiling s) by (unfold lift; by rewrite Hceil).
  rewrite (bind_step _ _ _ _ _ Hloop). reflexivity.
Qed.

(** [print] writes its line when the standard output accepts the four
    chunks, and otherwise raises what the refused write raised. *)
Lemma write_chunks_accepted chunks written s :
  Forall (fun c => stdout_write W c = Returned tt) chunks ->
  exists line, write_chunks W chunks written s = (Returned line, s).
Proof.
  intros H. revert written.
  induction H as [|c chunks Hc _ IH]; intros written; cbn [write_chunks].
  - by exists written.
  - rewrite Hc. apply IH.
Qed.

Lemma write_chunks_raised chunks written s x s' :
  write_chunks W chunks written s = (Raised x, s') ->
  exists chunk, chunk ∈ chunks /\ stdout_write W chunk = Raised x.
Proof.
  revert written. induction chunks as [|c chunks IH]; intros written;
    cbn [write_chunks]; [discriminate |].
  destruct (stdout_write W c) as [u|y] eqn:E.
  - intros H. destruct (IH _ H) as (chunk & Hin & Hw).
    exists chunk. split; [by right | done].
  - intros [= <- _]. exists c. split; [left | done].
Qed.

Lemma print_accepted msg e s :
  Forall (fun c => stdout_write W c = Returned tt) (print_chunks msg e) ->
  print W msg e s = (Returned tt, printed msg e s).
Proof.
  intros H. unfold print.
  by destruct (write_chunks_accepted _ [] s H) as (line & ->).
Qed.

Lemma print_cases msg e s :
  print W msg e s = (Returned tt, printed msg e s) \/
  exists x s' chunk,
    print W msg e s = (Raised x, s') /\
    chunk ∈ print_chunks msg e /\ stdout_write W chunk = Raised x.
Proof.
  unfold print.
  destruct (write_chunks W (print_chunks msg e) [] s) as [[line|x] s'] eqn:E.
  - by left.
  - right. destruct (write_chunks_raised _ _ _ _ _ E) as (chunk & Hin & Hw).
    by exists x, s', chunk.
Qed.

(** The fetcher itself: the handler prints the warning for whatever the
    block raised and returns the empty list. *)
Lemma scrape_holidify_hotels_cases dest budget days s :
  match hotels_try U W dest budget days s with
  | (Returned hs, s1) =>
      scrape_holidify_hotels U W dest budget days s = (Returned hs, s1)
  | (Raised e, s1) =>
      scrape_holidify_hotels U W dest budget days s
      = match print W hotel_warning e s1 with
        | (Returned _, s2) => (Returned [], s2)
        | (Raised x, s2) => (Raised x, s2)
        end
  end.
Proof.
  unfold scrape_holidify_hotels, try_except.
  destruct (hotels_try U W dest budget days s) as [[hs|e] s1]; [reflexivity |].
  unfold bind. by destruct (print W hotel_warning e s1) as [[u|x] s2].
Qed.

(** What the fetcher returns after its block raised is the empty list. *)
Lemma scrape_holidify_hotels_after_raise dest budget days s e s1 hs s' :
  hotels_try U W dest budget days s = (Raised e, s1) ->
  scrape_holidify_hotels U W dest budget days s = (Returned hs, s') ->
  hs = [].
Proof.
  intros Htry Hrun.
  pose proof (scrape_holidify_hotels_cases dest budget days s) as Hc.
  rewrite Htry in Hc. rewrite Hc in Hrun.
  destruct (print W hotel_warning e s1) as [[u|x] s2]; congruence.
Qed.
Lemma scrape_holidify_attractions_cases dest s :
  match attractions_try U W dest s with
  | (Returned l, s1) =>
      scrape_holidify_attractions U W dest s = (Returned l, s1)
  | (Raised e, s1) =>
      scrape_holidify_attractions U W dest s = (Returned [], s1)
  end.
Proof.
  unfold scrape_holidify_attractions, try_except.
  destruct (attractions_try U W dest s) as [[l|e] s1]; reflexivity.
Qed.

(** What the two [try] blocks do on each failure. *)
Lemma attractions_try_get_raised dest s e :
  http_get W (attractions_url U dest) = Raised e ->
  attractions_try U W dest s = (Raised e, s).
Proof. intros H. unfold attractions_try, bind, lift. by rewrite H. Qed.

Lemma attractions_try_bad_status dest s resp :
  http_get W (attractions_url U dest) = Returned resp ->
  status_code resp <> 200 ->
  attractions_try U W dest s = (Returned [], s).
Proof.
  intros H Hne. unfold attractions_try, bind, lift. rewrite H.
  apply Z.eqb_neq in Hne. by rewrite Hne.
Qed.

Lemma attractions_try_parse_raised dest s resp e :
  http_get W (attractions_url U dest) = Returned resp ->
  status_code resp = 200 ->
  select_headings W (resp_text resp) = Raised e ->
  attractions_try U W dest s = (Raised e, s).
Proof.
  intros H Hst Hsel. unfold attractions_try, bind, lift. rewrite H, Hst.
  change (negb (200 =? 200)) with false. cbv iota. by rewrite Hsel.
Qed.

Lemma hotels_try_get_raised dest budget days s e :
  http_get W (hotels_url U dest) = Raised e ->
  hotels_try U W dest budget days s = (Raised e, s).
Proof. intros H. unfold hotels_try, bind, lift. by rewrite H. Qed.

Lemma hotels_try_bad_status dest budget days s resp :
  http_get W (hotels_url U dest) = Returned resp ->
  status_code resp <> 200 ->
  hotels_try U W dest budget days s = (Returned [], s).
Proof.
  intros H Hne. unfold hotels_try, bind, lift. rewrite H.
  apply Z.eqb_neq in Hne. by rewrite Hne.
Qed.

Lemma hotels_try_parse_raised dest budget days s resp e :
  http_get W (hotels_url U dest) = Returned resp ->
  status_code resp = 200 ->
  select_cards W (resp_text resp) = Raised e ->
  hotels_try U W dest budget days s = (Raised e, s).
Proof.
  intros H Hst Hsel. unfold hotels_try, bind, lift. rewrite H, Hst.
  change (negb (200 =? 200)) with false. cbv iota. by rewrite Hsel.
Qed.
End FetcherFacts.

(** C7.  With the network down and a standard output that cannot encode
    the warning sign, the attraction fetcher returns the empty list, but
    the hotel fetcher raises: the [print] of its handler raises
    [UnicodeEncodeError] and nothing catches it.  [generate_plan] ends in
    that error. *)
Theorem hotel_fetcher_raises_when_warning_unprintable U s :
  scrape_holidify_attractions U network_down_latin1 (str "Goa") s
  = (Returned [], s) /\
  scrape_holidify_hotels U network_down_latin1 (str "Goa") 20000 3 s
  = (Raised latin1_error, s) /\
  generate_plan U network_down_latin1 (str "Goa") 20000 3 [str "nature"]
    (str "vegetarian") s
  = (Raised latin1_error, s).
Proof. split; [reflexivity | split; reflexivity]. Qed.

(** X19.  What the fetchers do with an exception.  The attraction fetcher
    never raises, prints nothing and draws nothing; it returns the empty
    list whenever its [try] block raises, in particular when the request
    raises, when the status is not 200 and when the parser raises.  The
    hotel fetcher returns what its [try] block returns, printing nothing;
    when the block raises it returns the empty list after printing one
    line, the warning followed by the exception, provided the standard
    output accepts the chunks of that line; and it raises only what a
    write of one of those chunks raised. *)
Theorem fetchers_swallow_exceptions U W dest budget days s :
  (exists l,
     scrape_holidify_attractions U W dest s = (Returned l, s) /\
     (forall e s1, attractions_try U W dest s = (Raised e, s1) -> l = []) /\
     (forall e, http_get W (attractions_url U dest) = Raised e -> l = []) /\
     (forall resp, http_get W (attractions_url U dest) = Returned resp ->
        status_code resp <> 200 -> l = []) /\
     (forall resp e, http_get W (attractions_url U dest) = Returned resp ->
        select_headings W (resp_text resp) = Raised e -> l = [])) /\
  (forall hs1 s1, hotels_try U W dest budget days s = (Returned hs1, s1) ->
     scrape_holidify_hotels U W dest budget days s = (Returned hs1, s1) /\
     stdout s1 = stdout s) /\
  (forall e s1, hotels_try U W dest budget days s = (Raised e, s1) ->
     (Forall (fun c => stdout_write W c = Returned tt)
             (print_chunks hotel_warning e) ->
      scrape_holidify_hotels U W dest budget days s
      = (Returned [], printed hotel_warning e s1) /\
      stdout (printed hotel_warning e s1)
      = stdout s ++ [hotel_warning ++ str " " ++ exn_message e]) /\
     (forall x s', scrape_holidify_hotels U W dest budget days s = (Raised x, s') ->
        exists chunk, chunk ∈ print_chunks hotel_warning e /\
                      stdout_write W chunk = Raised x)) /\
  (forall e, http_get W (hotels_url U dest) = Raised e ->
     hotels_try U W dest budget days s = (Raised e, s)) /\
  (forall resp, http_get W (hotels_url U dest) = Returned resp ->
     status_code resp <> 200 ->
     scrape_holidify_hotels U W dest budget days s = (Returned [], s)) /\
  (forall resp e, http_get W (hotels_url U dest) = Returned resp ->
     status_code resp = 200 ->
     select_cards W (resp_text resp) = Raised e ->
     hotels_try U W dest budget days s = (Raised e, s)).
Proof.
  split.
  - pose proof (scrape_holidify_attractions_cases U W dest s) as Hc.
    destruct (attractions_try U W dest s) as [[l1|e1] s1] eqn:Htry;
      pose proof (attractions_try_state _ _ _ _ _ _ Htry) as ->.
    + exists l1. split; [exact Hc |]. split; [discriminate |].
      split; [| split].
      * intros e He.
        rewrite (attractions_try_get_raised _ _ _ _ _ He) in Htry. discriminate.
      * intros resp Hget Hne.
        rewrite (attractions_try_bad_status _ _ _ _ _ Hget Hne) in Htry.
        congruence.
      * intros resp e Hget Hsel.
        destruct (Z.eq_dec (status_code resp) 200) as [Hst | Hne].
        -- rewrite (attractions_try_parse_raised _ _ _ _ _ _ Hget Hst Hsel)
             in Htry. discriminate.
        -- rewrite (attractions_try_bad_status _ _ _ _ _ Hget Hne) in Htry.
           congruence.
    + exists []. split; [exact Hc |]. repeat split.
  - pose proof (scrape_holidify_hotels_cases U W dest budget days s) as Hc.
    split; [| split; [| split; [| split]]].
    + intros hs1 s1 Htry. rewrite Htry in Hc. split; [exact Hc |].
      exact (hotels_try_stdout _ _ _ _ _ _ _ _ Htry).
    + intros e s1 Htry. rewrite Htry in Hc.
      pose proof (hotels_try_stdout _ _ _ _ _ _ _ _ Htry) as Hout. split.
      * intros Hok. rewrite (print_accepted W _ _ s1 Hok) in Hc.
        split; [exact Hc |]. unfold printed. cbn [stdout]. by rewrite Hout.
      * intros x s' Hrun. rewrite Hc in Hrun.
        destruct (print_cases W hotel_warning e s1)
          as [Hp | (y & s2 & chunk & Hp & Hin & Hw)]; rewrite Hp in Hrun.
        -- discriminate.
        -- injection Hrun as <- _. by exists chunk.
    + intros e He. exact (hotels_try_get_raised _ _ _ _ _ _ _ He).
    + intros resp Hget Hne.
      rewrite (hotels_try_bad_status _ _ _ _ _ _ _ Hget Hne) in Hc. exact Hc.
    + intros resp e Hget Hst Hsel.
      exact (hotels_try_parse_raised _ _ _ _ _ _ _ _ Hget Hst Hsel).
Qed.

(** C1, as the code has it.  A list that [scrape_holidify_hotels] returns
    has at most 10 hotels, and it is the fallback list or every hotel of it
    costs at most [budget * 0.50]; and when the page came with status 200,
    was parsed, the ceiling was computed, and every card was skipped or
    priced above the ceiling, the fetcher returns the fallback list. *)
Theorem scrape_holidify_hotels_result U W dest budget days s :
  (forall hs s',
     scrape_holidify_hotels U W dest budget days s = (Returned hs, s') ->
     (length hs <= 10)%nat /\
     (hs = fallback_hotels \/
      forall h, h ∈ hs ->
        exists ceiling, int_mul_float budget 0.50 = Returned ceiling /\
                        int_le_float (price h) ceiling = true)) /\
  (forall resp cards ceiling,
     http_get W (hotels_url U dest) = Returned resp ->
     status_code resp = 200 ->
     select_cards W (resp_text resp) = Returned cards ->
     int_mul_float budget 0.50 = Returned ceiling ->
     (forall c, c ∈ cards ->
        card_price U c = None \/
        exists p, card_price U c = Some (Returned p) /\
                  int_le_float p ceiling = false) ->
     exists s',
       scrape_holidify_hotels U W dest budget days s
       = (Returned fallback_hotels, s')).
Proof.
  pose proof (scrape_holidify_hotels_cases U W dest budget days s) as Hc.
  split.
  - intros hs s' Hrun.
    destruct (hotels_try U W dest budget days s) as [[hs1|e1] s1] eqn:Htry.
    + assert (hs1 = hs) as -> by congruence.
      exact (hotels_try_returned _ _ _ _ _ _ _ _ Htry).
    + rewrite (scrape_holidify_hotels_after_raise U W _ _ _ _ _ _ _ _ Htry Hrun).
      split; [simpl; lia |]. right. intros h Hh. by apply elem_of_nil in Hh.
  - intros resp cards ceiling Hget Hst Hsel Hceil Hall.
    destruct (hotels_try_fallback U W dest budget days s _ _ _
                Hget Hst Hsel Hceil Hall) as (s2 & Hfb).
    rewrite Hfb in Hc. by exists s2.
Qed.

Lemma scrape_holidify_hotels_result_witness :
  (forall hs s',
     scrape_holidify_hotels ascii_tables goa (str "Goa") 20000 3 start
     = (Returned hs, s') ->
     (length hs <= 10)%nat /\
     (hs = fallback_hotels \/
      forall h, h ∈ hs ->
        exists ceiling, int_mul_float 20000 0.50 = Returned ceiling /\
                        int_le_float (price h) ceiling = true)) /\
  (forall resp cards ceiling,
     http_get goa (hotels_url ascii_tables (str "Goa")) = Returned resp ->
     status_code resp = 200 ->
     select_cards goa (resp_text resp) = Returned cards ->
     int_mul_float 20000 0.50 = Returned ceiling ->
     (forall c, c ∈ cards ->
        card_price ascii_tables c = None \/
        exists p, card_price ascii_tables c = Some (Returned p) /\
                  int_le_float p ceiling = false) ->
     exists s',
       scrape_holidify_hotels ascii_tables goa (str "Goa") 20000 3 start
       = (Returned fallback_hotels, s')).
Proof.
  exact (scrape_holidify_hotels_result ascii_tables goa (str "Goa") 20000 3 start).
Defined.

(** C1, as stated, fails: with the smallest budget of the form, 1000, and a
    page without cards, the fetcher returns the fallback list, whose hotels
    all cost more than [1000 * 0.50]. *)
Lemma fallback_exceeds_small_budget :
  exists hs s' h ceiling,
    scrape_holidify_hotels ascii_tables blank_page (str "Goa") 1000 3 start
    = (Returned hs, s') /\
    h ∈ hs /\
    int_mul_float 1000 0.50 = Returned ceiling /\
    int_le_float (price h) ceiling = false.
Proof.
  exists fallback_hotels, start,
    {| name := str "Budget Stay"; price := 1200; rating := 3.9 |}, 500%float.
  split; [vm_compute; reflexivity |].
  split; [left |].
  split; vm_compute; reflexivity.
Qed.

(** The same fetch with real cards: two of the five cards are kept. *)
Example goa_hotels :
  fst (scrape_holidify_hotels ascii_tables goa (str "Goa") 20000 3 start)
  = Returned [ {| name := str "Sea View Resort"; price := 4500; rating := 4.5 |};
               {| name := str "Palm Grove Hostel"; price := 899; rating := 3.5 |} ].
Proof. vm_compute. reflexivity. Qed.

(** ** Random draws *)

Lemma randbelow_range n s r s' :
  0 < n -> randbelow n s = (Returned r, s') -> 0 <= r < n.
Proof.
  intros Hn. rewrite randbelow_run. intros [= <- _].
  apply Z.mod_pos_bound. exact Hn.
Qed.

Lemma random_randint_range a b s r s' :
  a <= b -> random_randint a b s = (Returned r, s') -> a <= r <= b.
Proof.
  intros Hab H. unfold random_randint in H. inv_run H.
  apply ret_returned in H as [-> _].
  apply randbelow_range in Hrun; lia.
Qed.

Lemma random_choice_elem {A} (seq : list A) s x s' :
  random_choice seq s = (Returned x, s') -> x ∈ seq.
Proof.
  destruct seq as [|y seq]; [discriminate |].
  unfold random_choice. intros H. inv_run H.
  apply ret_returned in H as [-> _].
  apply randbelow_range in Hrun; [| cbn [length]; lia].
  apply list_elem_of_In, nth_In. lia.
Qed.

(** Exchanging two positions permutes the list. *)
Lemma insert_head_perm {A} (x : list A) j a b :
  x !! j = Some b -> b :: <[j := a]> x ≡ₚ a :: x.
Proof.
  revert j. induction x as [|c x IH]; intros [|j]; simpl; try discriminate.
  - intros [= ->]. apply perm_swap.
  - intros H. rewrite (perm_swap c b), (IH _ H). apply perm_swap.
Qed.

Lemma swap_perm {A} (x : list A) i j : swap x i j ≡ₚ x.
Proof.
  unfold swap.
  destruct (x !! j) as [xj|] eqn:Hj; [| done].
  destruct (x !! i) as [xi|] eqn:Hi; [| done].
  revert i j Hi Hj. induction x as [|c x IH]; intros [|i] [|j]; simpl;
    try discriminate.
  - by intros [= ->] [= ->].
  - intros [= ->] Hj. by apply insert_head_perm.
  - intros Hi [= ->]. by apply insert_head_perm.
  - intros Hi Hj. by rewrite IH.
Qed.

Lemma shuffle_from_perm {A} i (x : list A) s :
  exists y s', shuffle_from i x s = (Returned y, s') /\ y ≡ₚ x.
Proof.
  revert x s. induction i as [|i IH]; intros x s; cbn [shuffle_from].
  - by exists x, s.
  - rewrite (bind_step _ _ _ _ _ (randbelow_run _ s)).
    destruct (IH (swap x (S i) (Z.to_nat (Z.of_N (tape s (cursor s))
                                          mod (Z.of_nat (S i) + 1))))
                (advance s)) as (y & s' & Hrun & Hperm).
    exists y, s'. split; [exact Hrun |]. by rewrite Hperm, swap_perm.
Qed.

Lemma random_shuffle_perm {A} (x : list A) s y s' :
  random_shuffle x s = (Returned y, s') -> y ≡ₚ x.
Proof.
  unfold random_shuffle. intros H.
  destruct (shuffle_from_perm (length x - 1) x s) as (y' & s1 & Hrun & Hperm).
  congruence.
Qed.

(** ** [generate_plan], step by step *)
Lemma generate_plan_inv U W destination budget days preferences food_type s p s' :
  generate_plan U W destination budget days preferences food_type s
  = (Returned p, s') ->
  exists scraped hotels s1 shuffled budget30,
    scrape_holidify_attractions U W destination s = (Returned scraped, s) /\
    scrape_holidify_hotels U W destination budget days s = (Returned hotels, s1) /\
    Destination p = destination /\
    Hotel p ∈ hotels /\
    Hotel_Cost p = price (Hotel p) /\
    (if bool_decide (food_type = str "vegetarian")
     then 400 <= Food_Cost p <= 700 else 600 <= Food_Cost p <= 900) /\
    600 <= Transport p <= 2000 /\
    int_mul_float budget 0.30 = Returned budget30 /\
    Shopping p = float_round budget30 2 /\
    int_add_float
      (price (Hotel p) * days + Food_Cost p * days + Transport p) (Shopping p)
    = Returned (Total_Cost p) /\
    shuffled ≡ₚ default_if_empty (filter_attractions U scraped preferences) /\
    days <> 0 /\
    Itinerary p =
      itinerary_of shuffled
        (Z.max 1 (Z.of_nat (length shuffled) / days)) days.
Proof.
  intros H. unfold generate_plan in H.
  destruct (scrape_holidify_attractions_returns U W destination s) as [scraped Hs].
  rewrite (bind_step _ _ _ _ _ Hs) in H.
  apply bind_returned in H as (hotels & s1 & Hhotels & H).
  apply bind_returned in H as (hotel & s2 & Hchoice & H).
  apply bind_returned in H as (food & s3 & Hfood & H).
  apply bind_returned in H as (transport & s4 & Htransport & H).
  apply bind_returned in H as (budget30 & s5 & Hb30 & H).
  apply lift_returned in Hb30 as [Hb30 ->].
  apply bind_returned in H as (total & s6 & Htotal & H).
  apply lift_returned in Htotal as [Htotal ->].
  apply bind_returned in H as (shuffled & s7 & Hshuffle & H).
  apply bind_returned in H as (quotient & s8 & Hq & H).
  apply lift_returned in Hq as [Hq ->].
  apply ret_returned in H as [-> ->].
  unfold floordiv in Hq. destruct (days =? 0) eqn:Hd; [discriminate |].
  injection Hq as <-. apply Z.eqb_neq in Hd.
  exists scraped, hotels, s1, shuffled, budget30. cbn.
  split; [exact Hs |]. split; [exact Hhotels |]. split; [reflexivity |].
  split; [exact (random_choice_elem _ _ _ _ Hchoice) |].
  split; [reflexivity |]. split.
  { destruct (bool_decide _);
      eapply random_randint_range in Hfood; lia. }
  split; [eapply random_randint_range in Htransport; lia |].
  split; [exact Hb30 |]. split; [reflexivity |]. split; [exact Htotal |].
  split; [| done].
  exact (random_shuffle_perm _ _ _ _ Hshuffle).
Qed.

(** ** The itinerary *)

Lemma str_inj a b : str a = str b -> a = b.
Proof.
  unfold str. intros H.
  rewrite <- (String.string_of_list_ascii_of_string a),
          <- (String.string_of_list_ascii_of_string b).
  f_equal. revert H.
  generalize (String.list_ascii_of_string a) (String.list_ascii_of_string b).
  intros l. induction l as [|x l IH]; intros [|y l']; simpl; try discriminate.
  - reflexivity.
  - intros [= Hx Hl]. f_equal; [| by apply IH].
    rewrite <- (Ascii.ascii_N_embedding x), <- (Ascii.ascii_N_embedding y).
    by rewrite Hx.
Qed.

Lemma int_to_text_inj a b : int_to_text a = int_to_text b -> a = b.
Proof.
  unfold int_to_text. intros H. apply str_inj in H.
  assert (Hn : forall z, Z.to_int z <> Decimal.Pos Decimal.Nil /\
                         Z.to_int z <> Decimal.Neg Decimal.Nil).
  { intros [|q|q]; simpl; split; try discriminate;
      intros [= Hq]; by apply DecimalPos.Unsigned.to_uint_nonnil in Hq. }
  apply DecimalZ.to_int_inj.
  assert (Some (Z.to_int a) = Some (Z.to_int b)) as [= ->]; [| done].
  rewrite <- (NilZero.isi (Z.to_int a)), <- (NilZero.isi (Z.to_int b))
    by apply Hn.
  by rewrite H.
Qed.

Lemma day_label_inj i j : day_label i = day_label j -> i = j.
Proof.
  unfold day_label. intros H. apply app_inv_head in H.
  apply int_to_text_inj in H. lia.
Qed.

Lemma dict_set_fresh {V} (d : list (text * V)) k v :
  k ∉ map fst d -> dict_set d k v = d ++ [(k, v)].
Proof.
  induction d as [|[k' v'] d IH]; simpl; intros Hk; [done |].
  apply not_elem_of_cons in Hk as [Hne Hk].
  destruct (decide (k' = k)); [congruence |]. by rewrite IH.
Qed.

Lemma dict_get_map {V} (f : Z -> V) (l : list Z) i :
  i ∈ l -> dict_get (map (fun j => (day_label j, f j)) l) (day_label i) = Some (f i).
Proof.
  induction l as [|j l IH]; simpl; intros Hi; [by apply elem_of_nil in Hi |].
  destruct (decide (day_label j = day_label i)) as [E | E].
  - by apply day_label_inj in E as ->.
  - apply elem_of_cons in Hi as [-> | Hi]; [done | by apply IH].
Qed.

(** The keys of the comprehension are pairwise distinct, so the dictionary
    holds one entry per day, in order. *)
Lemma itinerary_of_map attractions per_day days :
  itinerary_of attractions per_day days =
  map (fun i => (day_label i,
                 py_slice attractions (i * per_day) ((i + 1) * per_day)))
      (range days).
Proof.
  unfold itinerary_of, range.
  induction (Z.to_nat days) as [|n IH]; [reflexivity |].
  rewrite seq_S, !map_app, fold_left_app, IH. cbn [fold_left map].
  apply dict_set_fresh. rewrite map_map. cbn [fst].
  intros Hin. apply list_elem_of_In, in_map_iff in Hin as (j & Hj & Hin).
  apply day_label_inj in Hj as ->.
  apply in_map_iff in Hin as (m & Hm & Hin). apply in_seq in Hin. lia.
Qed.

Lemma elem_of_range n i : i ∈ range n <-> 0 <= i < n.
Proof.
  unfold range. rewrite list_elem_of_In, in_map_iff. split.
  - intros (m & <- & Hm). apply in_seq in Hm. lia.
  - intros Hi. exists (Z.to_nat i). split; [lia |]. apply in_seq. lia.
Qed.

Lemma length_range n : length (range n) = Z.to_nat n.
Proof. unfold range. by rewrite length_map, length_seq. Qed.

Lemma NoDup_day_labels n : NoDup (map day_label (range n)).
Proof.
  unfold range. rewrite map_map.
  apply NoDup_fmap_2_strong; [| apply NoDup_ListNoDup, seq_NoDup].
  intros a b _ _ H. apply day_label_inj in H. lia.
Qed.

(** A slice between bounds that are not negative. *)
Lemma py_slice_nonneg {A} (l : list A) lo hi :
  0 <= lo <= hi ->
  py_slice l lo hi = take (Z.to_nat (hi - lo)) (drop (Z.to_nat lo) l).
Proof.
  intros H. unfold py_slice, slice_bound.
  destruct (lo <? 0) eqn:E1; [lia |]. destruct (hi <? 0) eqn:E2; [lia |].
  destruct (Z.le_gt_cases (Z.of_nat (length l)) lo) as [Hge | Hlt].
  - rewrite !drop_ge by lia. by rewrite !take_nil.
  - rewrite (Z.min_l lo) by lia.
    destruct (Z.le_gt_cases hi (Z.of_nat (length l))) as [Hhi | Hhi].
    + by rewrite (Z.min_l hi) by lia.
    + rewrite (Z.min_r hi) by lia.
      rewrite !take_ge; [done | |]; rewrite length_drop; lia.
Qed.

Lemma chunk_eq {A} (l : list A) i per_day :
  0 <= i -> 0 <= per_day ->
  py_slice l (i * per_day) ((i + 1) * per_day)
  = take (Z.to_nat per_day) (drop (Z.to_nat i * Z.to_nat per_day) l).
Proof.
  intros Hi Hp. rewrite py_slice_nonneg by nia.
  f_equal; [f_equal; lia | f_equal; nia].
Qed.

Lemma chunk_length {A} (l : list A) i per_day :
  0 <= i -> 0 <= per_day ->
  Z.of_nat (length (py_slice l (i * per_day) ((i + 1) * per_day)))
  = Z.min per_day (Z.max 0 (Z.of_nat (length l) - i * per_day)).
Proof.
  intros Hi Hp. rewrite chunk_eq, length_take, length_drop by done. nia.
Qed.

(** The chunks of the first [n] days, one after the other, are the first
    [n * per_day] attractions: what lies beyond is in no chunk. *)
Lemma chunks_concat {A} (l : list A) per_day n :
  0 <= per_day ->
  concat (map (fun i => py_slice l (i * per_day) ((i + 1) * per_day))
              (map Z.of_nat (seq 0 n)))
  = take (n * Z.to_nat per_day) l.
Proof.
  intros Hp. induction n as [|n IH]; [by rewrite take_0 |].
  rewrite seq_S, !map_app, concat_app, IH. cbn [map concat].
  rewrite app_nil_r, chunk_eq, Nat2Z.id by lia.
  rewrite take_take_drop. f_equal. lia.
Qed.

(** What the comprehension builds, for any list and any [per_day]. *)
Lemma itinerary_of_facts attractions per_day days :
  0 <= per_day ->
  map fst (itinerary_of attractions per_day days) = map day_label (range days) /\
  NoDup (map fst (itinerary_of attractions per_day days)) /\
  length (itinerary_of attractions per_day days) = Z.to_nat days /\
  (forall i, 0 <= i < days ->
     dict_get (itinerary_of attractions per_day days) (day_label i)
     = Some (py_slice attractions (i * per_day) ((i + 1) * per_day))) /\
  concat (map snd (itinerary_of attractions per_day days))
  = take (Z.to_nat days * Z.to_nat per_day) attractions.
Proof.
  intros Hp. rewrite itinerary_of_map, !map_map. cbn [fst snd].
  split; [reflexivity |]. split; [apply NoDup_day_labels |].
  split; [by rewrite length_map, length_range |]. split.
  - intros i Hi.
    apply (dict_get_map
             (fun i => py_slice attractions (i * per_day) ((i + 1) * per_day))).
    by apply elem_of_range.
  - unfold range. by rewrite chunks_concat.
Qed.

(** C8.  The list that [generate_plan] shuffles and cuts into days is the
    default list of four when the filter left nothing, and what the filter
    left otherwise. *)
Theorem default_attractions_when_empty
    U W destination budget days preferences food_type s scraped p s' :
  scrape_holidify_attractions U W destination s = (Returned scraped, s) ->
  generate_plan U W destination budget days preferences food_type s
  = (Returned p, s') ->
  exists shuffled,
    Itinerary p =
      itinerary_of shuffled (Z.max 1 (Z.of_nat (length shuffled) / days)) days /\
    (filter_attractions U scraped preferences = [] ->
     shuffled ≡ₚ map str ["Local Market Visit"; "City Park"; "Sunset Point";
                          "Cultural Walk"]) /\
    (filter_attractions U scraped preferences <> [] ->
     shuffled ≡ₚ filter_attractions U scraped preferences).
Proof.
  intros Hs H.
  apply generate_plan_inv in H
    as (scraped' & hotels & s1 & shuffled & b30 & Hs' & _ & _ & _ & _ & _ & _
        & _ & _ & _ & Hperm & _ & Hit).
  assert (scraped' = scraped) as -> by congruence.
  exists shuffled. split; [exact Hit |]. split.
  - intros E. by rewrite E in Hperm.
  - intros E. destruct (filter_attractions U scraped preferences); done.
Qed.

(** C4.  The total of a plan is the sum, in Python's arithmetic, of the
    integer [hotel price * days + food cost * days + transport] and the
    float [round(budget * 0.30, 2)], for the hotel, food cost and transport
    cost recorded in the plan. *)
Theorem total_cost_formula
    U W destination budget days preferences food_type s p s' :
  generate_plan U W destination budget days preferences food_type s
  = (Returned p, s') ->
  exists budget30,
    int_mul_float budget 0.30 = Returned budget30 /\
    Shopping p = float_round budget30 2 /\
    Hotel_Cost p = price (Hotel p) /\
    int_add_float
      (Hotel_Cost p * days + Food_Cost p * days + Transport p) (Shopping p)
    = Returned (Total_Cost p).
Proof.
  intros H.
  apply generate_plan_inv in H
    as (scraped & hotels & s1 & shuffled & b30 & _ & _ & _ & _ & Hcost & _ & _
        & Hb30 & Hshop & Htotal & _).
  exists b30. rewrite Hcost. auto.
Qed.

(** C3, as the code has it.  For [1 <= days] the itinerary has the keys
    ["Day 1"] to ["Day days"], once each and in order; day [i + 1] holds
    the slice [[i * per_day : (i + 1) * per_day]] of the shuffled list,
    where [per_day] is [max(1, count // days)]; a day holds at most
    [per_day] attractions, and exactly [count // days] of them when
    [days <= count]; the days together hold the first [days * per_day]
    attractions of the shuffled list and nothing else, so at most [count]. *)
Theorem itinerary_partition
    U W destination budget days preferences food_type s scraped p s' :
  scrape_holidify_attractions U W destination s = (Returned scraped, s) ->
  generate_plan U W destination budget days preferences food_type s
  = (Returned p, s') ->
  1 <= days ->
  exists shuffled per_day,
    shuffled ≡ₚ default_if_empty (filter_attractions U scraped preferences) /\
    length shuffled
    = length (default_if_empty (filter_attractions U scraped preferences)) /\
    per_day = Z.max 1 (Z.of_nat (length shuffled) / days) /\
    map fst (Itinerary p) = map day_label (range days) /\
    NoDup (map fst (Itinerary p)) /\
    length (Itinerary p) = Z.to_nat days /\
    (forall i, 0 <= i < days ->
       dict_get (Itinerary p) (day_label i)
       = Some (py_slice shuffled (i * per_day) ((i + 1) * per_day)) /\
       Z.of_nat (length (py_slice shuffled (i * per_day) ((i + 1) * per_day)))
       <= per_day /\
       (days <= Z.of_nat (length shuffled) ->
        Z.of_nat (length (py_slice shuffled (i * per_day) ((i + 1) * per_day)))
        = Z.of_nat (length shuffled) / days)) /\
    concat (map snd (Itinerary p)) = take (Z.to_nat (days * per_day)) shuffled /\
    (length (concat (map snd (Itinerary p))) <= length shuffled)%nat.
Proof.
  intros Hs H Hdays.
  apply generate_plan_inv in H
    as (scraped' & hotels & s1 & shuffled & b30 & Hs' & _ & _ & _ & _ & _ & _
        & _ & _ & _ & Hperm & _ & Hit).
  assert (scraped' = scraped) as -> by congruence.
  exists shuffled, (Z.max 1 (Z.of_nat (length shuffled) / days)).
  set (per_day := Z.max 1 (Z.of_nat (length shuffled) / days)) in *.
  assert (Hp : 1 <= per_day) by (unfold per_day; lia).
  destruct (itinerary_of_facts shuffled per_day days ltac:(lia))
    as (Hkeys & Hnodup & Hsize & Hget & Hcat).
  rewrite Hit, Hcat.
  split; [exact Hperm |]. split; [by apply Permutation_length |].
  split; [reflexivity |]. split; [exact Hkeys |]. split; [exact Hnodup |].
  split; [exact Hsize |].
  split; [| split; [f_equal; nia | rewrite length_take; lia]].
  intros i Hi. split; [by apply Hget | split].
  - rewrite chunk_length by lia. lia.
  - intros Hcount. rewrite chunk_length by lia.
    assert (Hq : 1 <= Z.of_nat (length shuffled) / days)
      by (apply Z.div_le_lower_bound; lia).
    assert (Hpq : per_day = Z.of_nat (length shuffled) / days)
      by (unfold per_day; lia).
    pose proof (Z.mul_div_le (Z.of_nat (length shuffled)) days ltac:(lia)) as Hm.
    rewrite <- Hpq in *. nia.
Qed.

(** C10.  With fewer attractions than days, [per_day] is 1: each of the
    first [count] days holds one attraction, the one of its rank in the
    shuffled list, every later day holds the empty list, and all the
    [days] keys are there. *)
Theorem itinerary_fewer_attractions_than_days
    U W destination budget days preferences food_type s scraped p s' :
  scrape_holidify_attractions U W destination s = (Returned scraped, s) ->
  generate_plan U W destination budget days preferences food_type s
  = (Returned p, s') ->
  1 <= Z.of_nat (length (default_if_empty
                           (filter_attractions U scraped preferences))) < days ->
  exists shuffled,
    shuffled ≡ₚ default_if_empty (filter_attractions U scraped preferences) /\
    Z.max 1 (Z.of_nat (length shuffled) / days) = 1 /\
    map fst (Itinerary p) = map day_label (range days) /\
    length (Itinerary p) = Z.to_nat days /\
    (forall i a, shuffled !! i = Some a ->
       dict_get (Itinerary p) (day_label (Z.of_nat i)) = Some [a]) /\
    (forall i, Z.of_nat (length shuffled) <= i < days ->
       dict_get (Itinerary p) (day_label i) = Some []).
Proof.
  intros Hs H Hcount.
  apply generate_plan_inv in H
    as (scraped' & hotels & s1 & shuffled & b30 & Hs' & _ & _ & _ & _ & _ & _
        & _ & _ & _ & Hperm & _ & Hit).
  assert (scraped' = scraped) as -> by congruence.
  rewrite <- (Permutation_length Hperm) in Hcount.
  assert (Hq : Z.of_nat (length shuffled) / days = 0)
    by (apply Z.div_small; lia).
  rewrite Hq in Hit. change (Z.max 1 0) with 1 in Hit.
  destruct (itinerary_of_facts shuffled 1 days ltac:(lia))
    as (Hkeys & _ & Hsize & Hget & _).
  rewrite Hit.
  exists shuffled. split; [exact Hperm |]. split; [lia |].
  split; [exact Hkeys |]. split; [exact Hsize |]. split.
  - intros i a Hi. pose proof (lookup_lt_Some _ _ _ Hi) as Hlt.
    rewrite Hget by lia. f_equal.
    rewrite chunk_eq, Nat2Z.id by lia.
    change (Z.to_nat 1) with 1%nat. rewrite Nat.mul_1_r.
    rewrite (drop_S _ _ _ Hi). reflexivity.
  - intros i Hi. rewrite Hget by lia. f_equal.
    rewrite chunk_eq by lia. rewrite drop_ge by lia. apply take_nil.
Qed.

(** ** The theorems at sample inputs *)

Example goa_scraped :
  scrape_holidify_attractions ascii_tables goa (str "Goa") start
  = (Returned goa_attractions, start).
Proof. vm_compute. reflexivity. Qed.

Lemma default_attractions_when_empty_witness :
  exists p s',
    scrape_holidify_attractions ascii_tables goa (str "Goa") start
    = (Returned goa_attractions, start) /\
    generate_plan ascii_tables goa (str "Goa") 20000 3 [str "museum"]
      (str "vegetarian") start = (Returned p, s') /\
    exists shuffled,
      Itinerary p =
        itinerary_of shuffled (Z.max 1 (Z.of_nat (length shuffled) / 3)) 3 /\
      (filter_attractions ascii_tables goa_attractions [str "museum"] = [] ->
       shuffled ≡ₚ map str ["Local Market Visit"; "City Park"; "Sunset Point";
                            "Cultural Walk"]) /\
      (filter_attractions ascii_tables goa_attractions [str "museum"] <> [] ->
       shuffled ≡ₚ filter_attractions ascii_tables goa_attractions [str "museum"]).
Proof.
  assert (Hs : scrape_holidify_attractions ascii_tables goa (str "Goa") start
               = (Returned goa_attractions, start))
    by (vm_compute; reflexivity).
  destruct (generate_plan ascii_tables goa (str "Goa") 20000 3 [str "museum"]
              (str "vegetarian") start) as [[p|e] s'] eqn:E;
    [| vm_compute in E; discriminate].
  exists p, s'. split; [exact Hs |]. split; [reflexivity |].
  exact (default_attractions_when_empty ascii_tables goa (str "Goa") 20000 3
           [str "museum"] (str "vegetarian") start goa_attractions p s' Hs E).
Defined.

Lemma total_cost_formula_witness :
  exists p s',
    generate_plan ascii_tables goa (str "Goa") 20000 3 [str "nature"; str "fun"]
      (str "non-vegetarian") start = (Returned p, s') /\
    exists budget30,
      int_mul_float 20000 0.30 = Returned budget30 /\
      Shopping p = float_round budget30 2 /\
      Hotel_Cost p = price (Hotel p) /\
      int_add_float
        (Hotel_Cost p * 3 + Food_Cost p * 3 + Transport p) (Shopping p)
      = Returned (Total_Cost p).
Proof.
  destruct (generate_plan ascii_tables goa (str "Goa") 20000 3
              [str "nature"; str "fun"] (str "non-vegetarian") start)
    as [[p|e] s'] eqn:E; [| vm_compute in E; discriminate].
  exists p, s'. split; [reflexivity |].
  exact (total_cost_formula ascii_tables goa (str "Goa") 20000 3
           [str "nature"; str "fun"] (str "non-vegetarian") start p s' E).
Defined.

(** The plan of that run, in full. *)
Example goa_plan :
  fst (generate_plan ascii_tables goa (str "Goa") 20000 3 [str "nature"; str "fun"]
         (str "non-vegetarian") start)
  = Returned
      {| Destination := str "Goa";
         Hotel := {| name := str "Sea View Resort"; price := 4500; rating := 4.5 |};
         Hotel_Cost := 4500;
         Food_Cost := 617;
         Transport := 624;
         Shopping := 6000;
         Total_Cost := 21975;
         Itinerary :=
           [(str "Day 1", [str "Butterfly Conservatory Garden"]);
            (str "Day 2", [str "Baga Beach"]);
            (str "Day 3", [str "Salim Ali Bird Sanctuary"])] |}.
Proof. vm_compute. reflexivity. Qed.

Lemma itinerary_partition_witness :
  exists p s',
    scrape_holidify_attractions ascii_tables goa (str "Goa") start
    = (Returned goa_attractions, start) /\
    generate_plan ascii_tables goa (str "Goa") 20000 2 [str "nature"; str "fun"]
      (str "vegetarian") start = (Returned p, s') /\
    1 <= 2 /\
    exists shuffled per_day,
      shuffled ≡ₚ default_if_empty
                    (filter_attractions ascii_tables goa_attractions
                       [str "nature"; str "fun"]) /\
      length shuffled
      = length (default_if_empty
                  (filter_attractions ascii_tables goa_attractions
                     [str "nature"; str "fun"])) /\
      per_day = Z.max 1 (Z.of_nat (length shuffled) / 2) /\
      map fst (Itinerary p) = map day_label (range 2) /\
      NoDup (map fst (Itinerary p)) /\
      length (Itinerary p) = Z.to_nat 2 /\
      (forall i, 0 <= i < 2 ->
         dict_get (Itinerary p) (day_label i)
         = Some (py_slice shuffled (i * per_day) ((i + 1) * per_day)) /\
         Z.of_nat (length (py_slice shuffled (i * per_day) ((i + 1) * per_day)))
         <= per_day /\
         (2 <= Z.of_nat (length shuffled) ->
          Z.of_nat (length (py_slice shuffled (i * per_day) ((i + 1) * per_day)))
          = Z.of_nat (length shuffled) / 2)) /\
      concat (map snd (Itinerary p)) = take (Z.to_nat (2 * per_day)) shuffled /\
      (length (concat (map snd (Itinerary p))) <= length shuffled)%nat.
Proof.
  assert (Hs : scrape_holidify_attractions ascii_tables goa (str "Goa") start
               = (Returned goa_attractions, start))
    by (vm_compute; reflexivity).
  destruct (generate_plan ascii_tables goa (str "Goa") 20000 2
              [str "nature"; str "fun"] (str "vegetarian") start)
    as [[p|e] s'] eqn:E; [| vm_compute in E; discriminate].
  assert (Hdays : 1 <= 2) by lia.
  exists p, s'. split; [exact Hs |]. split; [reflexivity |].
  split; [exact Hdays |].
  exact (itinerary_partition ascii_tables goa (str "Goa") 20000 2
           [str "nature"; str "fun"] (str "vegetarian") start goa_attractions
           p s' Hs E Hdays).
Defined.

(** C3, as stated, fails: six attractions and seven days give
    [6 // 7 = 0], and yet the first day holds one attraction. *)
Lemma itinerary_chunk_exceeds_floor :
  exists p s' chunk,
    scrape_holidify_attractions ascii_tables goa (str "Goa") start
    = (Returned goa_attractions, start) /\
    filter_attractions ascii_tables goa_attractions [] = goa_attractions /\
    length goa_attractions = 6%nat /\
    generate_plan ascii_tables goa (str "Goa") 20000 7 [] (str "vegetarian") start
    = (Returned p, s') /\
    dict_get (Itinerary p) (str "Day 1") = Some chunk /\
    length chunk = 1%nat /\
    6 / 7 = 0.
Proof.
  destruct (generate_plan ascii_tables goa (str "Goa") 20000 7 []
              (str "vegetarian") start) as [[p|e] s'] eqn:E;
    vm_compute in E; [| discriminate].
  injection E as <- <-.
  eexists _, _, _. split; [vm_compute; reflexivity |].
  split; [reflexivity |]. split; [reflexivity |]. split; [reflexivity |].
  split; [vm_compute; reflexivity |]. split; reflexivity.
Qed.

Lemma itinerary_fewer_attractions_than_days_witness :
  exists p s',
    scrape_holidify_attractions ascii_tables goa (str "Goa") start
    = (Returned goa_attractions, start) /\
    generate_plan ascii_tables goa (str "Goa") 20000 5 [str "nature"; str "fun"]
      (str "vegetarian") start = (Returned p, s') /\
    1 <= Z.of_nat (length (default_if_empty
                             (filter_attractions ascii_tables goa_attractions
                                [str "nature"; str "fun"]))) < 5 /\
    exists shuffled,
      shuffled ≡ₚ default_if_empty
                    (filter_attractions ascii_tables goa_attractions
                       [str "nature"; str "fun"]) /\
      Z.max 1 (Z.of_nat (length shuffled) / 5) = 1 /\
      map fst (Itinerary p) = map day_label (range 5) /\
      length (Itinerary p) = Z.to_nat 5 /\
      (forall i a, shuffled !! i = Some a ->
         dict_get (Itinerary p) (day_label (Z.of_nat i)) = Some [a]) /\
      (forall i, Z.of_nat (length shuffled) <= i < 5 ->
         dict_get (Itinerary p) (day_label i) = Some []).
Proof.
  assert (Hs : scrape_holidify_attractions ascii_tables goa (str "Goa") start
               = (Returned goa_attractions, start))
    by (vm_compute; reflexivity).
  destruct (generate_plan ascii_tables goa (str "Goa") 20000 5
              [str "nature"; str "fun"] (str "vegetarian") start)
    as [[p|e] s'] eqn:E; [| vm_compute in E; discriminate].
  assert (Hcount : 1 <= Z.of_nat (length (default_if_empty
                      (filter_attractions ascii_tables goa_attractions
                         [str "nature"; str "fun"]))) < 5)
    by (vm_compute; split; [discriminate | reflexivity]).
  exists p, s'. split; [exact Hs |]. split; [reflexivity |].
  split; [exact Hcount |].
  exact (itinerary_fewer_attractions_than_days ascii_tables goa (str "Goa")
           20000 5 [str "nature"; str "fun"] (str "vegetarian") start
           goa_attractions p s' Hs E Hcount).
Defined.

Example goa_no_museum :
  filter_attractions ascii_tables goa_attractions [str "museum"] = [].
Proof. vm_compute. reflexivity. Qed.

(** ** The Goa scenario *)

(** C2.  When the network is down both fetchers return the empty list, and
    [generate_plan] ends in the [IndexError] of [random.choice] on the empty
    hotel list, after the warning of the hotel fetcher: no plan is made. *)
Theorem goa_network_down U s :
  scrape_holidify_attractions U network_down (str "Goa") s = (Returned [], s) /\
  scrape_holidify_hotels U network_down (str "Goa") 20000 3 s
  = (Returned [], printed hotel_warning connection_error s) /\
  generate_plan U network_down (str "Goa") 20000 3 [str "nature"]
    (str "vegetarian") s
  = (Raised (Exn IndexError (str "Cannot choose from an empty sequence")),
     printed hotel_warning connection_error s).
Proof. split; [reflexivity | split; reflexivity]. Qed.

(** The same happens, without the warning, when the site answers with a
    status other than 200. *)
Lemma goa_bad_status U s :
  generate_plan U (site 503 [] []) (str "Goa") 20000 3 [str "nature"]
    (str "vegetarian") s
  = (Raised (Exn IndexError (str "Cannot choose from an empty sequence")), s).
Proof. reflexivity. Qed.

(** The draws below return whatever the tape holds. *)
Lemma random_choice_returns {A} (seq : list A) s :
  seq <> [] ->
  exists x, random_choice seq s = (Returned x, advance s) /\ x ∈ seq.
Proof.
  intros Hne. destruct (random_choice seq s) as [[x|e] s'] eqn:E.
  - exists x. split; [| exact (random_choice_elem _ _ _ _ E)].
    destruct seq; [done |]. unfold random_choice in E.
    rewrite (bind_step _ _ _ _ _ (randbelow_run _ s)) in E.
    apply ret_returned in E as [_ ->]. reflexivity.
  - destruct seq; [done |]. unfold random_choice in E.
    rewrite (bind_step _ _ _ _ _ (randbelow_run _ s)) in E. discriminate.
Qed.

Lemma random_randint_returns a b s :
  a <= b ->
  exists r, random_randint a b s = (Returned r, advance s) /\ a <= r <= b.
Proof.
  intros Hab. eexists. split; [reflexivity |].
  pose proof (Z.mod_pos_bound (Z.of_N (tape s (cursor s))) (b - a + 1)). lia.
Qed.

Lemma float_of_int_small z :
  0 <= z <= 10000 -> exists f, float_of_int z = Returned f.
Proof.
  intros Hz.
  assert (Hall : forallb (fun z => match float_of_int z with
                                   | Returned _ => true
                                   | Raised _ => false
                                   end) (range 10001) = true)
    by (vm_compute; reflexivity).
  rewrite forallb_forall in Hall.
  specialize (Hall z). destruct (float_of_int z); [eauto |].
  discriminate Hall. apply list_elem_of_In, elem_of_range. lia.
Qed.

Lemma filter_attractions_nil U preferences :
  filter_attractions U [] preferences = [].
Proof.
  unfold filter_attractions. destruct preferences; [done |].
  by destruct (bool_decide _).
Qed.

(** X1.  The hotel fetcher reaches its fallback when the page arrives with
    status 200 and nothing is found on it.  Then, whatever the random source
    draws, the plan of the Goa scenario is made: a fallback hotel, a food
    cost in [400, 700], a transport cost in [600, 2000], shopping 6000.0,
    the total of the formula, and three days of one attraction each, taken
    from a permutation of the four default attractions. *)
Theorem goa_blank_page U s :
  exists p s',
    generate_plan U blank_page (str "Goa") 20000 3 [str "nature"]
      (str "vegetarian") s = (Returned p, s') /\
    Hotel p ∈ fallback_hotels /\
    Hotel_Cost p = price (Hotel p) /\
    400 <= Food_Cost p <= 700 /\
    600 <= Transport p <= 2000 /\
    Shopping p = 6000%float /\
    int_add_float (Hotel_Cost p * 3 + Food_Cost p * 3 + Transport p) 6000
    = Returned (Total_Cost p) /\
    exists a1 a2 a3 a4,
      [a1; a2; a3; a4] ≡ₚ default_attractions /\
      Itinerary p
      = [(str "Day 1", [a1]); (str "Day 2", [a2]); (str "Day 3", [a3])].
Proof.
  unfold generate_plan.
  rewrite (bind_step _ _ s [] s) by reflexivity.
  rewrite (bind_step _ _ s fallback_hotels s) by reflexivity.
  rewrite filter_attractions_nil. cbn [default_if_empty].
  destruct (random_choice_returns fallback_hotels s ltac:(done))
    as (hotel & Hchoice & Hhotel).
  rewrite (bind_step _ _ _ _ _ Hchoice).
  rewrite bool_decide_eq_true_2 by reflexivity.
  destruct (random_randint_returns 400 700 (advance s) ltac:(lia))
    as (food & Hfood & Hfood_range).
  rewrite (bind_step _ _ _ _ _ Hfood).
  destruct (random_randint_returns 600 2000 (advance (advance s)) ltac:(lia))
    as (transport & Htransport & Htransport_range).
  rewrite (bind_step _ _ _ _ _ Htransport).
  rewrite (bind_step _ _ _ 6000%float (advance (advance (advance s))))
    by reflexivity.
  change (float_round 6000 2) with 6000%float.
  assert (Hprice : 1000 <= price hotel <= 1400).
  { repeat (apply elem_of_cons in Hhotel as [-> | Hhotel]; [simpl; lia |]).
    by apply elem_of_nil in Hhotel. }
  destruct (float_of_int_small (price hotel * 3 + food * 3 + transport)
              ltac:(lia)) as (core & Hcore).
  assert (Htotal : int_add_float (price hotel * 3 + food * 3 + transport) 6000
                   = Returned (PrimFloat.add core 6000))
    by (unfold int_add_float; by rewrite Hcore).
  rewrite (bind_step _ _ _ (PrimFloat.add core 6000)
             (advance (advance (advance s))))
    by (unfold lift; by rewrite Htotal).
  destruct (shuffle_from_perm (length default_attractions - 1)
              default_attractions (advance (advance (advance s))))
    as (shuffled & s' & Hshuffle & Hperm).
  unfold random_shuffle. rewrite (bind_step _ _ _ _ _ Hshuffle).
  pose proof (Permutation_length Hperm) as Hlen.
  destruct shuffled as [|a1 [|a2 [|a3 [|a4 [|a5 rest]]]]]; try discriminate.
  rewrite (bind_step _ _ _ 1 s') by reflexivity.
  eexists _, s'. split; [reflexivity |]. cbn.
  split; [exact Hhotel |]. split; [reflexivity |].
  split; [exact Hfood_range |]. split; [exact Htransport_range |].
  split; [reflexivity |]. split; [exact Htotal |].
  exists a1, a2, a3, a4. split; [exact Hperm |]. reflexivity.
Qed.

(** * Further properties of the code *)

(** ** Cleaning the headings *)
Section CleaningFacts.
Variable U : unicode.

Lemma lstrip_head s c r : lstrip U s = c :: r -> isspace U c = false.
Proof.
  induction s as [|x s IH]; simpl; [discriminate |].
  destruct (isspace U x) eqn:E; [exact IH |]. by intros [= <- _].
Qed.

Lemma lstrip_snoc s c :
  isspace U c = false -> lstrip U (s ++ [c]) = lstrip U s ++ [c].
Proof.
  intros Hc. induction s as [|x s IH]; simpl.
  - by rewrite Hc.
  - by destruct (isspace U x).
Qed.

(** A stripped text is empty, or begins and ends with characters that are
    not spaces. *)
Lemma strip_ends s :
  strip U s = [] \/
  exists c c', head (strip U s) = Some c /\ isspace U c = false /\
               last (strip U s) = Some c' /\ isspace U c' = false.
Proof.
  unfold strip. destruct (lstrip U s) as [|c r] eqn:E; [by left |].
  right. pose proof (lstrip_head _ _ _ E) as Hc.
  cbn [rev]. rewrite lstrip_snoc by exact Hc.
  rewrite rev_app_distr. cbn [rev app].
  exists c. destruct (lstrip U (rev r)) as [|c' r'] eqn:E'.
  - exists c. by cbn.
  - exists c'. split; [done |]. split; [done |].
    pose proof (lstrip_head _ _ _ E') as Hc'. split; [| done].
    cbn [rev]. change (c :: (rev r' ++ [c'])) with ((c :: rev r') ++ [c']).
    apply last_snoc.
Qed.

Lemma clean_loop_spec attractions clean :
  clean_loop U attractions clean
  = clean ++ List.filter (fun a => (2 <? length a)%nat)
                         (map (clean_heading U) attractions).
Proof.
  revert clean. induction attractions as [|a rest IH]; intros clean; simpl.
  - by rewrite app_nil_r.
  - fold (clean_heading U a).
    destruct (2 <? length (clean_heading U a))%nat; rewrite IH; [| done].
    by rewrite <- app_assoc.
Qed.
End CleaningFacts.

Lemma scrape_holidify_attractions_cleaned U W dest s l s' :
  scrape_holidify_attractions U W dest s = (Returned l, s') ->
  l = [] \/
  exists headings,
    l = List.filter (fun a => (2 <? length a)%nat)
                    (map (clean_heading U) headings).
Proof.
  unfold scrape_holidify_attractions, try_except, attractions_try, bind, lift.
  destruct (http_get W _) as [resp|e]; [| intros [= <- _]; by left].
  destruct (negb _); [intros [= <- _]; by left |].
  destruct (select_headings W _) as [headings|e]; [| intros [= <- _]; by left].
  intros [= <- _]. right. exists headings. by rewrite clean_loop_spec.
Qed.

(** X2.  Every label that [scrape_holidify_attractions] returns has more
    than two characters and neither begins nor ends with a space. *)
Theorem scraped_attractions_are_clean U W dest s l s' a :
  scrape_holidify_attractions U W dest s = (Returned l, s') ->
  a ∈ l ->
  (2 < length a)%nat /\
  exists c c', head a = Some c /\ isspace U c = false /\
               last a = Some c' /\ isspace U c' = false.
Proof.
  intros H Ha.
  apply scrape_holidify_attractions_cleaned in H as [-> | (headings & ->)];
    [by apply elem_of_nil in Ha |].
  apply list_elem_of_In, filter_In in Ha as [Hin Hlen].
  apply Nat.ltb_lt in Hlen. split; [exact Hlen |].
  apply in_map_iff in Hin as (h & <- & _).
  unfold clean_heading in *.
  destruct (strip_ends U (re_sub_start (ordinal_pattern U) h)) as [E | E];
    [| exact E].
  rewrite E in Hlen. simpl in Hlen. lia.
Qed.

Lemma scraped_attractions_are_clean_witness :
  scrape_holidify_attractions ascii_tables goa (str "Goa") start
  = (Returned goa_attractions, start) /\
  str "Fort Aguada" ∈ goa_attractions /\
  (2 < length (str "Fort Aguada"))%nat /\
  exists c c', head (str "Fort Aguada") = Some c /\
               isspace ascii_tables c = false /\
               last (str "Fort Aguada") = Some c' /\
               isspace ascii_tables c' = false.
Proof.
  assert (Hs : scrape_holidify_attractions ascii_tables goa (str "Goa") start
               = (Returned goa_attractions, start))
    by (vm_compute; reflexivity).
  assert (Ha : str "Fort Aguada" ∈ goa_attractions) by (right; left).
  split; [exact Hs |]. split; [exact Ha |].
  exact (scraped_attractions_are_clean ascii_tables goa (str "Goa") start
           goa_attractions start (str "Fort Aguada") Hs Ha).
Defined.

(** X3.  When the page arrives with status 200 and is parsed, the fetcher
    returns the cleaned headings that have more than two characters, in the
    order of the page and with repetitions kept. *)
Theorem scraped_attractions_in_order U W dest s resp headings :
  http_get W (attractions_url U dest) = Returned resp ->
  status_code resp = 200 ->
  select_headings W (resp_text resp) = Returned headings ->
  scrape_holidify_attractions U W dest s
  = (Returned (List.filter (fun a => (2 <? length a)%nat)
                           (map (clean_heading U) headings)), s).
Proof.
  intros Hget Hst Hsel.
  unfold scrape_holidify_attractions, try_except, attractions_try, bind, lift.
  rewrite Hget, Hst. change (negb (200 =? 200)) with false. cbv iota.
  rewrite Hsel. unfold ret. by rewrite clean_loop_spec.
Qed.

Lemma scraped_attractions_in_order_witness :
  scrape_holidify_attractions ascii_tables
    (site 200 (map str ["1. City Park"; "2.  Zoo"; "3. AB"; "City Park"]) [])
    (str "Pune") start
  = (Returned (map str ["City Park"; "Zoo"; "City Park"]), start).
Proof.
  exact (scraped_attractions_in_order ascii_tables
           (site 200 (map str ["1. City Park"; "2.  Zoo"; "3. AB"; "City Park"]) [])
           (str "Pune") start (Response 200 [])
           (map str ["1. City Park"; "2.  Zoo"; "3. AB"; "City Park"])
           eq_refl eq_refl eq_refl).
Defined.

(** ** The ordinal prefix *)
Section StarFacts.
Variable it : item.
Variable k : text -> option (text * text).

(** A greedy repetition takes a whole run when the rest of the pattern
    accepts what follows the run. *)
Lemma star_run run rest r :
  Forall (fun c => cls it c = true) run ->
  k rest = Some r ->
  (forall c t, rest = c :: t -> cls it c = false) ->
  star it k (run ++ rest) = Some (run, r).
Proof.
  intros Hrun Hk Hrest. induction Hrun as [|c run Hc _ IH].
  - destruct rest as [|c t]; cbn [app star].
    + unfold skip. by rewrite Hk.
    + rewrite (Hrest c t eq_refl). unfold skip. by rewrite Hk.
  - cbn [app star]. cbn [app] in IH. by rewrite Hc, IH.
Qed.

(** And it fails when the rest of the pattern accepts no cut of the run. *)
Lemma star_none run rest :
  Forall (fun c => cls it c = true) run ->
  (forall c t, rest = c :: t -> cls it c = false) ->
  (forall i, k (drop i run ++ rest) = None) ->
  star it k (run ++ rest) = None.
Proof.
  intros Hrun Hrest Hk. induction Hrun as [|c run Hc _ IH].
  - specialize (Hk 0%nat). cbn [drop app] in Hk.
    destruct rest as [|c t]; cbn [app star].
    + unfold skip. by rewrite Hk.
    + rewrite (Hrest c t eq_refl). unfold skip. by rewrite Hk.
  - cbn [app star]. rewrite Hc, IH.
    + pose proof (Hk 0%nat) as Hk0. cbn [drop] in Hk0.
      unfold skip. cbn [app] in Hk0. by rewrite Hk0.
    + intros i. exact (Hk (S i)).
Qed.
End StarFacts.

(** X4.  A heading that begins with a number, a dot and any spaces loses
    exactly that prefix. *)
Theorem ordinal_prefix_removed U digits spaces rest :
  isdecimal U 46 = false ->
  digits <> [] ->
  Forall (fun c => isdecimal U c = true) digits ->
  Forall (fun c => isspace U c = true) spaces ->
  (forall c t, rest = c :: t -> isspace U c = false) ->
  re_sub_start (ordinal_pattern U) (digits ++ [46%N] ++ spaces ++ rest) = rest.
Proof.
  intros Hdot Hne Hdigits Hspaces Hrest.
  destruct digits as [|d digits]; [done |].
  apply Forall_cons in Hdigits as [Hd Hdigits].
  unfold re_sub_start, ordinal_pattern. cbn [match_here].
  set (k3 := fun s : text => Some (@nil N, s)).
  set (k2 := match_item (Item false (isspace U) Star) k3).
  set (k1 := match_item (Item false (is_char 46) One) k2).
  assert (H2 : k2 (spaces ++ rest) = Some ([], rest)).
  { unfold k2, match_item. cbn [qnt].
    rewrite (star_run _ k3 spaces rest ([], rest)); done. }
  assert (H1 : k1 ([46%N] ++ spaces ++ rest) = Some ([], rest)).
  { unfold k1, match_item. cbn [qnt cls app]. unfold is_char at 1.
    rewrite N.eqb_refl, H2. reflexivity. }
  unfold match_item at 1. cbn [qnt cls app]. rewrite Hd.
  rewrite (star_run _ k1 digits ([46%N] ++ spaces ++ rest) ([], rest)).
  - reflexivity.
  - exact Hdigits.
  - exact H1.
  - intros c t [= <- _]. exact Hdot.
Qed.

Lemma ordinal_prefix_removed_witness :
  re_sub_start (ordinal_pattern ascii_tables)
    (str "12" ++ [46%N] ++ str "  " ++ str "Fort Aguada")
  = str "Fort Aguada".
Proof.
  apply (ordinal_prefix_removed ascii_tables (str "12") (str "  ")
           (str "Fort Aguada")).
  - reflexivity.
  - discriminate.
  - repeat constructor.
  - repeat constructor.
  - intros c t [= <- _]. reflexivity.
Defined.

(** X5.  A heading that does not begin with a number followed by a dot is
    left as it is: its first character is no digit (it may be a dot), or
    its leading digits are followed by something other than a dot. *)
Theorem heading_without_ordinal_kept U digits rest :
  isdecimal U 46 = false ->
  Forall (fun c => isdecimal U c = true) digits ->
  (forall c t, rest = c :: t ->
     isdecimal U c = false /\ (digits <> [] -> c <> 46%N)) ->
  re_sub_start (ordinal_pattern U) (digits ++ rest) = digits ++ rest.
Proof.
  intros Hdot Hdigits Hrest.
  unfold re_sub_start, ordinal_pattern. cbn [match_here].
  set (k3 := fun s : text => Some (@nil N, s)).
  set (k2 := match_item (Item false (isspace U) Star) k3).
  set (k1 := match_item (Item false (is_char 46) One) k2).
  unfold match_item at 1. cbn [qnt cls].
  destruct digits as [|d digits]; cbn [app].
  - destruct rest as [|c t]; [done |].
    by destruct (Hrest c t eq_refl) as [-> _].
  - assert (Hne : forall c, c <> 46%N -> is_char 46 c = false)
      by (intros c Hc; unfold is_char; apply N.eqb_neq; congruence).
    assert (H1 : forall i, k1 (drop i (d :: digits) ++ rest) = None).
    { intros i. unfold k1, match_item. cbn [qnt cls].
      destruct (drop i (d :: digits)) as [|c t] eqn:E; cbn [app].
      - destruct rest as [|c t]; [done |].
        destruct (Hrest c t eq_refl) as [_ Hc]. by rewrite Hne; [| apply Hc].
      - assert (Hc : isdecimal U c = true).
        { rewrite Forall_forall in Hdigits. apply Hdigits.
          apply (elem_of_sublist (drop i (d :: digits))); [| apply sublist_drop].
          rewrite E. left. }
        rewrite Hne; [done | congruence]. }
    apply Forall_cons in Hdigits as [Hd Hdigits]. rewrite Hd.
    rewrite (star_none _ k1 digits rest); [done | done | |].
    + intros c t E. by destruct (Hrest c t E).
    + intros i. exact (H1 (S i)).
Qed.

Lemma heading_without_ordinal_kept_witness :
  re_sub_start (ordinal_pattern ascii_tables) (str "7" ++ str " Wonders. Park")
  = str "7" ++ str " Wonders. Park".
Proof.
  apply (heading_without_ordinal_kept ascii_tables (str "7")
           (str " Wonders. Park")).
  - reflexivity.
  - repeat constructor.
  - intros c t [= <- _]. split; [reflexivity | discriminate].
Defined.

(** A heading that begins with a dot is among those left as they are. *)
Example heading_with_leading_dot :
  re_sub_start (ordinal_pattern ascii_tables) ([] ++ str ".5 Bar") = str ".5 Bar".
Proof.
  vm_compute. reflexivity.
Qed.

(** ** More on [filter_attractions] *)

Lemma matches_any_spec U kws a :
  matches_any U kws a = true <->
  exists kw, kw ∈ kws /\ contains (lower U a) kw = true.
Proof.
  unfold matches_any. rewrite existsb_exists.
  split; intros (kw & H & Hc); exists kw; split; try done;
    by apply list_elem_of_In.
Qed.
 
Lemma matches_any_ext U kws kws' a :
  (forall kw, kw ∈ kws <-> kw ∈ kws') ->
  matches_any U kws a = matches_any U kws' a.
Proof.
  intros H. apply Bool.eq_iff_eq_true. rewrite !matches_any_spec.
  split; intros (kw & Hkw & Hc); exists kw; split; try done; by apply H.
Qed.

Lemma matches_any_mono U kws kws' a :
  (forall kw, kw ∈ kws -> kw ∈ kws') ->
  matches_any U kws a = true -> matches_any U kws' a = true.
Proof.
  intros H. rewrite !matches_any_spec.
  intros (kw & Hkw & Hc). exists kw. split; [by apply H | done].
Qed.

Lemma elem_of_selected preferences kw :
  kw ∈ elements (list_to_set (extend_keywords preferences []) : gset text) <->
  kw ∈ extend_keywords preferences [].
Proof. by rewrite elem_of_elements, elem_of_list_to_set. Qed.

Lemma List_filter_ext {A} (f g : A -> bool) l :
  (forall a, f a = g a) -> List.filter f l = List.filter g l.
Proof.
  intros H. induction l as [|a l IH]; simpl; [done |]. by rewrite H, IH.
Qed.

Lemma List_filter_sublist {A} (f : A -> bool) l : List.filter f l `sublist_of` l.
Proof.
  induction l as [|a l IH]; simpl; [constructor |].
  destruct (f a); by constructor.
Qed.

Lemma List_filter_mono {A} (f g : A -> bool) l :
  (forall a, f a = true -> g a = true) ->
  List.filter f l `sublist_of` List.filter g l.
Proof.
  intros H. induction l as [|a l IH]; simpl; [constructor |].
  destruct (f a) eqn:E.
  - rewrite (H a E). by constructor.
  - destruct (g a); [by constructor | done].
Qed.

Lemma filter_attractions_all U attractions preferences :
  str "all" ∈ preferences ->
  filter_attractions U attractions preferences = attractions.
Proof.
  intros Hall. unfold filter_attractions. destruct preferences; [done |].
  by rewrite bool_decide_eq_true_2.
Qed.

(** Two preference lists that select the same keywords filter alike. *)
Lemma filter_attractions_keywords_ext U attractions preferences preferences' :
  preferences <> [] -> preferences' <> [] ->
  (str "all" ∈ preferences <-> str "all" ∈ preferences') ->
  (forall kw, kw ∈ extend_keywords preferences [] <->
              kw ∈ extend_keywords preferences' []) ->
  filter_attractions U attractions preferences
  = filter_attractions U attractions preferences'.
Proof.
  intros Hne Hne' Hall Hkw.
  destruct (decide (str "all" ∈ preferences)) as [Hin | Hout].
  - rewrite !filter_attractions_all; [done | tauto | done].
  - rewrite !filter_attractions_selected by tauto.
    apply List_filter_ext. intros a. apply matches_any_ext.
    intros kw. rewrite !elem_of_selected. apply Hkw.
Qed.

(** X6.  With a non-empty preference list that does not hold ["all"], the
    filter keeps exactly the attractions whose lower-cased text contains a
    keyword of a selected category, in the order of the input. *)
Theorem filter_attractions_exact U (attractions preferences : list text) :
  preferences <> [] -> str "all" ∉ preferences ->
  (forall a,
     a ∈ filter_attractions U attractions preferences <->
     a ∈ attractions /\
     exists pref kws kw,
       pref ∈ preferences /\ category_keywords !! pref = Some kws /\
       kw ∈ kws /\ exists pre post, lower U a = pre ++ kw ++ post) /\
  filter_attractions U attractions preferences `sublist_of` attractions.
Proof.
  intros Hne Hall. rewrite filter_attractions_selected by done.
  split; [| apply List_filter_sublist].
  intros a. rewrite list_elem_of_In, filter_In, <- list_elem_of_In.
  rewrite matches_any_spec.
  split; intros [Hin H]; (split; [exact Hin |]).
  - destruct H as (kw & Hkw & Hc).
    apply elem_of_selected, extend_keywords_spec in Hkw
      as [Hkw | (pref & kws & Hp & Hk & Hkw)]; [by apply elem_of_nil in Hkw |].
    exists pref, kws, kw. repeat split; try done. by apply contains_spec.
  - destruct H as (pref & kws & kw & Hp & Hk & Hkw & Hsub).
    exists kw. split; [| by apply contains_spec].
    apply elem_of_selected, extend_keywords_spec. right. eauto.
Qed.

Lemma filter_attractions_exact_witness :
  (forall a,
     a ∈ filter_attractions ascii_tables goa_attractions [str "fun"; str "nature"] <->
     a ∈ goa_attractions /\
     exists pref kws kw,
       pref ∈ [str "fun"; str "nature"] /\
       category_keywords !! pref = Some kws /\
       kw ∈ kws /\ exists pre post, lower ascii_tables a = pre ++ kw ++ post) /\
  filter_attractions ascii_tables goa_attractions [str "fun"; str "nature"]
    `sublist_of` goa_attractions.
Proof.
  apply (filter_attractions_exact ascii_tables goa_attractions
           [str "fun"; str "nature"]).
  - discriminate.
  - intros H. repeat (apply elem_of_cons in H as [H | H]; [discriminate |]).
    by apply elem_of_nil in H.
Defined.

(** X7.  Only the set of preferences matters: their order and their
    repetitions do not change the result. *)
Theorem filter_attractions_preference_set
    U (attractions preferences preferences' : list text) :
  (forall pref, pref ∈ preferences <-> pref ∈ preferences') ->
  filter_attractions U attractions preferences
  = filter_attractions U attractions preferences'.
Proof.
  intros H. destruct preferences as [|p ps].
  - destruct preferences' as [|p' ps']; [done |].
    exfalso. eapply elem_of_nil, H. left.
  - destruct preferences' as [|p' ps'].
    { exfalso. eapply elem_of_nil, H. left. }
    apply filter_attractions_keywords_ext; [done | done | apply H |].
    intros kw. rewrite !extend_keywords_spec.
    split; (intros [Hnil | (pref & kws & Hp & Hk & Hkw)];
            [by apply elem_of_nil in Hnil |]);
      right; exists pref, kws; (split; [by apply H | done]).
Qed.

Lemma filter_attractions_preference_set_witness :
  filter_attractions ascii_tables goa_attractions
    [str "fun"; str "nature"; str "fun"]
  = filter_attractions ascii_tables goa_attractions [str "nature"; str "fun"].
Proof.
  apply (filter_attractions_preference_set ascii_tables goa_attractions
           [str "fun"; str "nature"; str "fun"] [str "nature"; str "fun"]).
  intros pref. rewrite !elem_of_cons. pose proof (elem_of_nil pref). tauto.
Defined.

(** X8.  Labels that name no category change nothing when they stand
    beside other preferences. *)
Theorem filter_attractions_ignores_unknown
    U (attractions preferences unknown : list text) :
  preferences <> [] ->
  (forall pref, pref ∈ unknown ->
     (pref ∉ map str ["historical"; "fun"; "museum"; "nature"]) /\
     pref <> str "all") ->
  filter_attractions U attractions (preferences ++ unknown)
  = filter_attractions U attractions preferences.
Proof.
  intros Hne Hunknown.
  apply filter_attractions_keywords_ext; [| done | |].
  - intros E. apply app_eq_nil in E as [E _]. done.
  - rewrite elem_of_app. split; [| tauto].
    intros [H | H]; [done |]. by destruct (Hunknown _ H).
  - intros kw. rewrite !extend_keywords_spec.
    split; (intros [Hnil | (pref & kws & Hp & Hk & Hkw)];
            [by apply elem_of_nil in Hnil |]); right; exists pref, kws.
    + apply elem_of_app in Hp as [Hp | Hp]; [done |].
      destruct (Hunknown _ Hp) as [Hu _].
      rewrite (category_keywords_unknown _ Hu) in Hk. discriminate.
    + split; [apply elem_of_app; by left | done].
Qed.

Lemma filter_attractions_ignores_unknown_witness :
  filter_attractions ascii_tables goa_attractions
    ([str "nature"] ++ [str "beaches"])
  = filter_attractions ascii_tables goa_attractions [str "nature"].
Proof.
  apply (filter_attractions_ignores_unknown ascii_tables goa_attractions
           [str "nature"] [str "beaches"]).
  - discriminate.
  - intros pref Hp. apply list_elem_of_singleton in Hp as ->. split.
    + intros H. repeat (apply elem_of_cons in H as [H | H]; [discriminate |]).
      by apply elem_of_nil in H.
    + discriminate.
Defined.

(** X9.  One more preference never removes an attraction: what a preference
    list keeps is kept, in the same order, when a label is added to it. *)
Theorem filter_attractions_more_preferences
    U (attractions preferences : list text) pref :
  preferences <> [] -> str "all" ∉ preferences ->
  filter_attractions U attractions preferences
    `sublist_of` filter_attractions U attractions (pref :: preferences).
Proof.
  intros Hne Hall.
  destruct (decide (pref = str "all")) as [-> | Hp].
  - rewrite (filter_attractions_all U attractions (str "all" :: preferences))
      by left.
    rewrite filter_attractions_selected by done. apply List_filter_sublist.
  - rewrite !filter_attractions_selected; [| done | | done | done].
    + apply List_filter_mono. intros a. apply matches_any_mono.
      intros kw. rewrite !elem_of_selected, !extend_keywords_spec.
      intros [Hnil | (q & kws & Hq & Hk & Hkw)];
        [by apply elem_of_nil in Hnil |].
      right. exists q, kws. split; [by right | done].
    + intros H. apply elem_of_cons in H as [H | H]; [congruence | done].
Qed.

Lemma filter_attractions_more_preferences_witness :
  (filter_attractions ascii_tables goa_attractions [str "nature"])
    `sublist_of`
  (filter_attractions ascii_tables goa_attractions [str "fun"; str "nature"]).
Proof.
  apply (filter_attractions_more_preferences ascii_tables goa_attractions
           [str "nature"] (str "fun")).
  - discriminate.
  - intros H. apply list_elem_of_singleton in H. discriminate.
Defined.

(** ** More on [scrape_holidify_hotels] *)
Section HotelFacts.
Variable U : unicode.
Variable W : world.

Lemma qualifies_filter_cons ceiling c cards :
  List.filter (qualifies U ceiling) (c :: cards)
  = if qualifies U ceiling c
    then c :: List.filter (qualifies U ceiling) cards
    else List.filter (qualifies U ceiling) cards.
Proof. reflexivity. Qed.

(** When the loop returns, it has appended one hotel for each qualifying
    card, in the order of the cards. *)
Lemma cards_loop_exact ceiling cards acc s hs s' :
  cards_loop U ceiling cards acc s = (Returned hs, s') ->
  exists new, hs = acc ++ new /\
    Forall2 (read_from U) new (List.filter (qualifies U ceiling) cards).
Proof.
  revert acc s. induction cards as [|c cards IH]; intros acc s; cbn [cards_loop].
  - intros [= <- _]. exists []. by rewrite app_nil_r.
  - pose proof (card_step_cases U ceiling acc c s) as Hc.
    rewrite qualifies_filter_cons. unfold qualifies at 1.
    destruct (card_price U c) as [[p|e]|] eqn:Hprice.
    + destruct Hc as (s1 & _ & Hc).
      destruct (int_le_float p ceiling).
      * destruct Hc as (h & Hrun & Hp & Hname).
        rewrite (bind_step _ _ _ _ _ Hrun). intros Hloop.
        destruct (IH _ _ Hloop) as (new & -> & Hnew).
        exists (h :: new). rewrite <- app_assoc. split; [done |].
        constructor; [| done]. split; [done | by rewrite Hp].
      * rewrite (bind_step _ _ _ _ _ Hc). apply IH.
    + rewrite (bind_raised _ _ _ _ _ Hc). discriminate.
    + rewrite (bind_step _ _ _ _ _ Hc). apply IH.
Qed.

Lemma cards_loop_returns ceiling cards acc s :
  (forall c e, c ∈ cards -> card_price U c <> Some (Raised e)) ->
  exists hs s', cards_loop U ceiling cards acc s = (Returned hs, s').
Proof.
  revert acc s. induction cards as [|c cards IH]; intros acc s Hok;
    cbn [cards_loop].
  - by exists acc, s.
  - assert (Hrest : forall c' e, c' ∈ cards -> card_price U c' <> Some (Raised e))
      by (intros c' e Hc'; apply Hok; by right).
    pose proof (card_step_cases U ceiling acc c s) as Hc.
    destruct (card_price U c) as [[p|e]|] eqn:Hprice.
    + destruct Hc as (s1 & _ & Hc). destruct (int_le_float p ceiling).
      * destruct Hc as (h & Hrun & _). rewrite (bind_step _ _ _ _ _ Hrun).
        by apply IH.
      * rewrite (bind_step _ _ _ _ _ Hc). by apply IH.
    + exfalso. apply (Hok c e); [left | done].
    + rewrite (bind_step _ _ _ _ _ Hc). by apply IH.
Qed.


(** The [try] block with the page in hand. *)
Lemma hotels_try_page dest budget days s resp cards ceiling :
  http_get W (hotels_url U dest) = Returned resp ->
  status_code resp = 200 ->
  select_cards W (resp_text resp) = Returned cards ->
  int_mul_float budget 0.50 = Returned ceiling ->
  hotels_try U W dest budget days s
  = match cards_loop U ceiling cards [] s with
    | (Returned valid, s1) =>
        (Returned (take 10 (match valid with
                            | [] => fallback_hotels
                            | _ => valid
                            end)), s1)
    | (Raised e, s1) => (Raised e, s1)
    end.
Proof.
  intros Hget Hst Hsel Hceil. unfold hotels_try.
  rewrite (bind_step _ _ s resp s) by (unfold lift; by rewrite Hget).
  rewrite Hst. change (negb (200 =? 200)) with false. cbv iota.
  rewrite (bind_step _ _ s cards s) by (unfold lift; by rewrite Hsel).
  rewrite (bind_step _ _ s ceiling s) by (unfold lift; by rewrite Hceil).
  unfold bind. by destruct (cards_loop U ceiling cards [] s) as [[valid|e] s1].
Qed.

Lemma hotels_try_origin dest budget days s hs s1 :
  hotels_try U W dest budget days s = (Returned hs, s1) ->
  hs = [] \/ hs = fallback_hotels \/
  exists cards ceiling new,
    hs = take 10 new /\
    Forall2 (read_from U) new (List.filter (qualifies U ceiling) cards).
Proof.
  unfold hotels_try, bind, lift.
  destruct (http_get W _) as [resp|e]; [| discriminate].
  destruct (negb _); [intros [= <- _]; by left |].
  destruct (select_cards W _) as [cards|e]; [| discriminate].
  destruct (int_mul_float budget _) as [ceiling|e]; [| discriminate].
  destruct (cards_loop U ceiling cards [] s) as [[valid|e] s2] eqn:Hloop;
    [| discriminate].
  apply cards_loop_exact in Hloop as (new & -> & Hnew). cbn [app].
  intros [= <- _]. destruct new as [|h new]; [right; by left |].
  right; right. by exists cards, ceiling, (h :: new).
Qed.
End HotelFacts.

(** X10.  When the page arrives with status 200 and is parsed, and [int]
    reads every price found, the fetcher returns the first ten cards that
    have a name and a price within the ceiling, in the order of the page,
    each with the name and the price of its card; it returns the fallback
    list when there is no such card. *)
Theorem hotels_first_ten_qualifying U W dest budget days s resp cards ceiling :
  http_get W (hotels_url U dest) = Returned resp ->
  status_code resp = 200 ->
  select_cards W (resp_text resp) = Returned cards ->
  int_mul_float budget 0.50 = Returned ceiling ->
  (forall c e, c ∈ cards -> card_price U c <> Some (Raised e)) ->
  exists hs s',
    scrape_holidify_hotels U W dest budget days s = (Returned hs, s') /\
    match List.filter (qualifies U ceiling) cards with
    | [] => hs = fallback_hotels
    | kept => Forall2 (read_from U) hs (take 10 kept)
    end.
Proof.
  intros Hget Hst Hsel Hceil Hok.
  pose proof (scrape_holidify_hotels_cases U W dest budget days s) as Hc.
  rewrite (hotels_try_page U W dest budget days s _ _ _ Hget Hst Hsel Hceil)
    in Hc.
  destruct (cards_loop_returns U ceiling cards [] s Hok) as (valid & s1 & Hloop).
  rewrite Hloop in Hc. eexists _, s1. split; [exact Hc |].
  apply cards_loop_exact in Hloop as (new & -> & Hnew). cbn [app].
  destruct Hnew as [|h c new kept Hh Hnew]; [reflexivity |].
  apply Forall2_take. by constructor.
Qed.

Lemma hotels_first_ten_qualifying_witness :
  exists hs s',
    scrape_holidify_hotels ascii_tables (site 200 [] twelve_cards) (str "Goa")
      20000 3 start = (Returned hs, s') /\
    match List.filter (qualifies ascii_tables 10000) twelve_cards with
    | [] => hs = fallback_hotels
    | kept => Forall2 (read_from ascii_tables) hs (take 10 kept)
    end.
Proof.
  apply (hotels_first_ten_qualifying ascii_tables (site 200 [] twelve_cards)
           (str "Goa") 20000 3 start (Response 200 []) twelve_cards 10000).
  - reflexivity.
  - reflexivity.
  - reflexivity.
  - vm_compute. reflexivity.
  - intros c e Hc.
    repeat (apply elem_of_cons in Hc as [-> | Hc]; [vm_compute; discriminate |]).
    by apply elem_of_nil in Hc.
Defined.

(** Of twelve qualifying cards the last two are left out. *)
Example twelve_cards_ten_hotels :
  map price (match fst (scrape_holidify_hotels ascii_tables
                          (site 200 [] twelve_cards) (str "Goa") 20000 3 start)
             with Returned hs => hs | Raised _ => [] end)
  = [1010; 1011; 1012; 1013; 1014; 1015; 1016; 1017; 1018; 1019].
Proof. vm_compute. reflexivity. Qed.



(** The line of that run, as it is printed. *)
Example bad_price_line :
  stdout (snd (scrape_holidify_hotels ascii_tables
                 (site 200 [] cards_with_bad_price) (str "Goa") 20000 3 start))
  = [[9888%N; 65039%N]
     ++ str " Hotel scraping error: invalid literal for int() with base 10: ''"].
Proof. vm_compute. reflexivity. Qed.

Lemma digits_value_nonneg U acc s v :
  (forall c d, todecimal U c = Some d -> 0 <= d) ->
  0 <= acc -> digits_value U acc s = Some v -> 0 <= v.
Proof.
  intros Hdec. revert acc. induction s as [|c s IH]; intros acc Hacc; simpl.
  - by intros [= <-].
  - destruct (todecimal U c) as [d|] eqn:E; [| discriminate].
    apply IH. pose proof (Hdec c d E). lia.
Qed.

Lemma card_price_nonneg U c p :
  (forall c d, todecimal U c = Some d -> 0 <= d) ->
  card_price U c = Some (Returned p) -> 0 <= p.
Proof.
  intros Hdec. unfold card_price, int_of_text.
  destruct (name_tag c); [| discriminate].
  destruct (price_match U c) as [g|]; [| discriminate].
  destruct (remove_commas g) as [|x t] eqn:E; [discriminate |].
  destruct (4300 <? length (x :: t))%nat; [discriminate |].
  destruct (digits_value U 0 (x :: t)) as [v|] eqn:Ev; [| discriminate].
  intros [= <-]. by apply (digits_value_nonneg U 0 (x :: t)).
Qed.

(** X12.  No hotel has a negative price, whatever the page holds: the price
    pattern reads digits and commas only. *)
Theorem hotel_prices_not_negative U W dest budget days s hs s' h :
  (forall c d, todecimal U c = Some d -> 0 <= d) ->
  scrape_holidify_hotels U W dest budget days s = (Returned hs, s') ->
  h ∈ hs ->
  0 <= price h.
Proof.
  intros Hdec Hrun Hh.
  pose proof (scrape_holidify_hotels_cases U W dest budget days s) as Hc.
  destruct (hotels_try U W dest budget days s) as [[hs1|e] s1] eqn:Htry.
  - assert (hs1 = hs) as -> by congruence.
    apply hotels_try_origin in Htry
      as [-> | [-> | (cards & ceiling & new & -> & Hnew)]].
    + by apply elem_of_nil in Hh.
    + repeat (apply elem_of_cons in Hh as [-> | Hh]; [simpl; lia |]).
      by apply elem_of_nil in Hh.
    + apply (elem_of_sublist _ new) in Hh; [| apply sublist_take].
      apply list_elem_of_lookup in Hh as (i & Hi).
      destruct (Forall2_lookup_l _ _ _ _ _ Hnew Hi) as (c & _ & _ & Hp).
      by apply (card_price_nonneg U c).
  - rewrite (scrape_holidify_hotels_after_raise U W _ _ _ _ _ _ _ _ Htry Hrun)
      in Hh.
    by apply elem_of_nil in Hh.
Qed.

Lemma hotel_prices_not_negative_witness :
  exists hs s' h,
    (forall c d, todecimal ascii_tables c = Some d -> 0 <= d) /\
    scrape_holidify_hotels ascii_tables goa (str "Goa") 20000 3 start
    = (Returned hs, s') /\
    h ∈ hs /\ 0 <= price h.
Proof.
  assert (Hdec : forall c d, todecimal ascii_tables c = Some d -> 0 <= d).
  { intros c d. simpl. unfold ascii_todecimal.
    destruct ((48 <=? c)%N && (c <=? 57)%N) eqn:E; [| discriminate].
    intros [= <-]. apply andb_true_iff in E as [E _]. apply N.leb_le in E. lia. }
  destruct (scrape_holidify_hotels ascii_tables goa (str "Goa") 20000 3 start)
    as [[hs|e] s'] eqn:E; [| vm_compute in E; discriminate].
  destruct hs as [|h hs]; [vm_compute in E; discriminate |].
  assert (Hh : h ∈ h :: hs) by left.
  exists (h :: hs), s', h. split; [exact Hdec |]. split; [reflexivity |].
  split; [exact Hh |].
  exact (hotel_prices_not_negative ascii_tables goa (str "Goa") 20000 3 start
           (h :: hs) s' h Hdec E Hh).
Defined.

(** ** More on [generate_plan] *)

(** X13.  A plan names the destination it was asked for and a hotel that
    the fetcher returned, with that hotel's price as its hotel cost; its
    food cost lies in [400, 700] for ["vegetarian"] and in [600, 900] for
    any other food type, and its transport cost in [600, 2000]. *)
Theorem plan_fields U W destination budget days preferences food_type s p s' :
  generate_plan U W destination budget days preferences food_type s
  = (Returned p, s') ->
  Destination p = destination /\
  (exists hotels s1,
     scrape_holidify_hotels U W destination budget days s = (Returned hotels, s1)
     /\ Hotel p ∈ hotels) /\
  Hotel_Cost p = price (Hotel p) /\
  (food_type = str "vegetarian" -> 400 <= Food_Cost p <= 700) /\
  (food_type <> str "vegetarian" -> 600 <= Food_Cost p <= 900) /\
  600 <= Transport p <= 2000.
Proof.
  intros H.
  apply generate_plan_inv in H
    as (scraped & hotels & s1 & shuffled & b30 & _ & Hhotels & Hdest & Hin
        & Hcost & Hfood & Htransport & _).
  split; [exact Hdest |]. split; [by exists hotels, s1 |].
  split; [exact Hcost |].
  split; [| split; [| exact Htransport]]; intros Hft.
  - by rewrite bool_decide_eq_true_2 in Hfood.
  - by rewrite bool_decide_eq_false_2 in Hfood.
Qed.

Lemma plan_fields_witness :
  exists p s',
    generate_plan ascii_tables goa (str "Goa") 20000 3 [str "nature"; str "fun"]
      (str "non-vegetarian") start = (Returned p, s') /\
    Destination p = str "Goa" /\
    (exists hotels s1,
       scrape_holidify_hotels ascii_tables goa (str "Goa") 20000 3 start
       = (Returned hotels, s1) /\ Hotel p ∈ hotels) /\
    Hotel_Cost p = price (Hotel p) /\
    (str "non-vegetarian" = str "vegetarian" -> 400 <= Food_Cost p <= 700) /\
    (str "non-vegetarian" <> str "vegetarian" -> 600 <= Food_Cost p <= 900) /\
    600 <= Transport p <= 2000.
Proof.
  destruct (generate_plan ascii_tables goa (str "Goa") 20000 3
              [str "nature"; str "fun"] (str "non-vegetarian") start)
    as [[p|e] s'] eqn:E; [| vm_compute in E; discriminate].
  exists p, s'. split; [reflexivity |].
  exact (plan_fields ascii_tables goa (str "Goa") 20000 3
           [str "nature"; str "fun"] (str "non-vegetarian") start p s' E).
Defined.

(** X14.  Whenever the hotel fetcher returns the empty list, as it does on
    every failure, [generate_plan] raises [IndexError]: there is no plan
    without a hotel. *)
Theorem generate_plan_needs_a_hotel
    U W destination budget days preferences food_type s s1 :
  scrape_holidify_hotels U W destination budget days s = (Returned [], s1) ->
  generate_plan U W destination budget days preferences food_type s
  = (Raised (Exn IndexError (str "Cannot choose from an empty sequence")), s1).
Proof.
  intros Hhotels. unfold generate_plan.
  destruct (scrape_holidify_attractions_returns U W destination s)
    as [scraped Hs].
  rewrite (bind_step _ _ _ _ _ Hs), (bind_step _ _ _ _ _ Hhotels).
  reflexivity.
Qed.

Lemma generate_plan_needs_a_hotel_witness :
  generate_plan ascii_tables (site 404 goa_headings goa_cards) (str "Goa")
    20000 3 [] (str "vegetarian") start
  = (Raised (Exn IndexError (str "Cannot choose from an empty sequence")), start).
Proof.
  apply (generate_plan_needs_a_hotel ascii_tables
           (site 404 goa_headings goa_cards) (str "Goa") 20000 3 []
           (str "vegetarian") start start).
  reflexivity.
Defined.

Lemma after_draws_advance n s : after_draws n (advance s) = after_draws (S n) s.
Proof. unfold after_draws, advance. cbn. f_equal. lia. Qed.

(** The shuffle of a list draws once for each position after the first. *)
Lemma shuffle_from_draws {A} i (x : list A) s :
  exists y, shuffle_from i x s = (Returned y, after_draws i s).
Proof.
  revert x s. induction i as [|i IH]; intros x s; cbn [shuffle_from].
  - exists x. unfold ret, after_draws. destruct s. cbn. do 2 f_equal. lia.
  - rewrite (bind_step _ _ _ _ _ (randbelow_run _ s)).
    destruct (IH (swap x (S i) (Z.to_nat (Z.of_N (tape s (cursor s))
                                          mod (Z.of_nat (S i) + 1))))
                (advance s)) as (y & Hrun).
    exists y. by rewrite Hrun, after_draws_advance.
Qed.

(** X15.  With [days = 0], a hotel to choose and a budget that converts to
    a float, [generate_plan] raises [ZeroDivisionError] at the division by
    [days], after all its random draws: one for the hotel, one for the food
    cost, one for the transport cost and one for each position but the
    first of the list that is shuffled. *)
Theorem generate_plan_zero_days
    U W destination budget preferences food_type s scraped hotels s1 b :
  scrape_holidify_attractions U W destination s = (Returned scraped, s) ->
  scrape_holidify_hotels U W destination budget 0 s = (Returned hotels, s1) ->
  hotels <> [] ->
  float_of_int budget = Returned b ->
  generate_plan U W destination budget 0 preferences food_type s
  = (Raised (Exn ZeroDivisionError
               (str "integer division or modulo by zero")),
     after_draws
       (3 + (length (default_if_empty
                       (filter_attractions U scraped preferences)) - 1))
       s1).
Proof.
  intros Hs Hhotels Hne Hb. unfold generate_plan.
  rewrite (bind_step _ _ _ _ _ Hs), (bind_step _ _ _ _ _ Hhotels).
  destruct (random_choice_returns hotels s1 Hne) as (hotel & Hchoice & _).
  rewrite (bind_step _ _ _ _ _ Hchoice).
  assert (Hfood : exists food,
             (if bool_decide (food_type = str "vegetarian")
              then random_randint 400 700 else random_randint 600 900)
               (advance s1) = (Returned food, advance (advance s1)))
    by (destruct (bool_decide _); eexists; reflexivity).
  destruct Hfood as (food & Hfood). rewrite (bind_step _ _ _ _ _ Hfood).
  destruct (random_randint_returns 600 2000 (advance (advance s1)) ltac:(lia))
    as (transport & Htransport & Hrange).
  rewrite (bind_step _ _ _ _ _ Htransport).
  rewrite (bind_step _ _ _ (PrimFloat.mul b 0.30) (advance (advance (advance s1))))
    by (unfold lift, int_mul_float; by rewrite Hb).
  destruct (float_of_int_small (price hotel * 0 + food * 0 + transport)
              ltac:(lia)) as (core & Hcore).
  rewrite (bind_step _ _ _
             (PrimFloat.add core (float_round (PrimFloat.mul b 0.30) 2))
             (advance (advance (advance s1))))
    by (unfold lift, int_add_float; by rewrite Hcore).
  unfold random_shuffle.
  destruct (shuffle_from_draws
              (length (default_if_empty
                         (filter_attractions U scraped preferences)) - 1)
              (default_if_empty (filter_attractions U scraped preferences))
              (advance (advance (advance s1))))
    as (shuffled & Hshuffle).
  rewrite (bind_step _ _ _ _ _ Hshuffle).
  rewrite !after_draws_advance.
  replace (S (S (S (length (default_if_empty
                              (filter_attractions U scraped preferences)) - 1))))
    with (3 + (length (default_if_empty
                         (filter_attractions U scraped preferences)) - 1))%nat
    by lia.
  reflexivity.
Qed.

Lemma generate_plan_zero_days_witness :
  scrape_holidify_attractions ascii_tables goa (str "Goa") start
  = (Returned goa_attractions, start) /\
  scrape_holidify_hotels ascii_tables goa (str "Goa") 20000 0 start
  = (Returned
       [ {| name := str "Sea View Resort"; price := 4500; rating := 4.5 |};
         {| name := str "Palm Grove Hostel"; price := 899; rating := 3.5 |} ],
     State sample_tape 1 []) /\
  generate_plan ascii_tables goa (str "Goa") 20000 0 [] (str "vegetarian") start
  = (Raised (Exn ZeroDivisionError
               (str "integer division or modulo by zero")),
     State sample_tape 9 []).
Proof.
  assert (Hs : scrape_holidify_attractions ascii_tables goa (str "Goa") start
               = (Returned goa_attractions, start))
    by (vm_compute; reflexivity).
  assert (Hh : scrape_holidify_hotels ascii_tables goa (str "Goa") 20000 0 start
               = (Returned
                    [ {| name := str "Sea View Resort"; price := 4500;
                         rating := 4.5 |};
                      {| name := str "Palm Grove Hostel"; price := 899;
                         rating := 3.5 |} ],
                  State sample_tape 1 []))
    by (vm_compute; reflexivity).
  split; [exact Hs |]. split; [exact Hh |].
  exact (generate_plan_zero_days ascii_tables goa (str "Goa") 20000 []
           (str "vegetarian") start goa_attractions _ _ 20000%float
           Hs Hh ltac:(discriminate) eq_refl).
Defined.

(** X16.  With a negative number of days a plan, when one is returned, has
    an empty itinerary. *)
Theorem negative_days_empty_itinerary
    U W destination budget days preferences food_type s p s' :
  generate_plan U W destination budget days preferences food_type s
  = (Returned p, s') ->
  days < 0 ->
  Itinerary p = [].
Proof.
  intros H Hdays.
  apply generate_plan_inv in H
    as (scraped & hotels & s1 & shuffled & b30 & _ & _ & _ & _ & _ & _ & _
        & _ & _ & _ & _ & _ & ->).
  rewrite itinerary_of_map. unfold range.
  replace (Z.to_nat days) with 0%nat by lia. reflexivity.
Qed.

Lemma negative_days_empty_itinerary_witness :
  exists p s',
    generate_plan ascii_tables goa (str "Goa") 20000 (-2) [] (str "vegetarian")
      start = (Returned p, s') /\
    -2 < 0 /\ Itinerary p = [].
Proof.
  destruct (generate_plan ascii_tables goa (str "Goa") 20000 (-2) []
              (str "vegetarian") start) as [[p|e] s'] eqn:E;
    [| vm_compute in E; discriminate].
  assert (Hdays : -2 < 0) by lia.
  exists p, s'. split; [reflexivity |]. split; [exact Hdays |].
  exact (negative_days_empty_itinerary ascii_tables goa (str "Goa") 20000 (-2)
           [] (str "vegetarian") start p s' E Hdays).
Defined.

(** X17.  The days of an itinerary hold only attractions of the filtered
    (or default) list, none more often than that list does; they hold
    [min(count, days * per_day)] of them, so that with [days <= count] the
    number left out is [count mod days]. *)
Theorem itinerary_schedules_filtered_attractions
    U W destination budget days preferences food_type s scraped p s' :
  scrape_holidify_attractions U W destination s = (Returned scraped, s) ->
  generate_plan U W destination budget days preferences food_type s
  = (Returned p, s') ->
  1 <= days ->
  concat (map snd (Itinerary p))
    ⊆+ default_if_empty (filter_attractions U scraped preferences) /\
  Z.of_nat (length (concat (map snd (Itinerary p))))
  = Z.min (Z.of_nat (length (default_if_empty
                               (filter_attractions U scraped preferences))))
          (days * Z.max 1 (Z.of_nat (length (default_if_empty
                               (filter_attractions U scraped preferences)))
                           / days)) /\
  (days <= Z.of_nat (length (default_if_empty
                               (filter_attractions U scraped preferences))) ->
   Z.of_nat (length (default_if_empty
                       (filter_attractions U scraped preferences)))
   - Z.of_nat (length (concat (map snd (Itinerary p))))
   = Z.of_nat (length (default_if_empty
                         (filter_attractions U scraped preferences)))
     mod days).
Proof.
  intros Hs H Hdays.
  apply generate_plan_inv in H
    as (scraped' & hotels & s1 & shuffled & b30 & Hs' & _ & _ & _ & _ & _ & _
        & _ & _ & _ & Hperm & _ & Hit).
  assert (scraped' = scraped) as -> by congruence.
  rewrite <- (Permutation_length Hperm).
  set (count := Z.of_nat (length shuffled)) in *.
  set (per_day := Z.max 1 (count / days)) in *.
  destruct (itinerary_of_facts shuffled per_day days ltac:(lia))
    as (_ & _ & _ & _ & Hcat).
  rewrite Hit, Hcat. split; [| split].
  - rewrite <- Hperm. apply submseteq_take.
  - rewrite length_take. fold count. nia.
  - intros Hcount. rewrite length_take.
    assert (Hq : 1 <= count / days) by (apply Z.div_le_lower_bound; lia).
    pose proof (Z.mul_div_le count days ltac:(lia)) as Hm.
    rewrite (Z.mod_eq count days) by lia.
    assert (per_day = count / days) as -> by (unfold per_day; lia).
    fold count. nia.
Qed.

Lemma itinerary_schedules_filtered_attractions_witness :
  exists p s',
    scrape_holidify_attractions ascii_tables goa (str "Goa") start
    = (Returned goa_attractions, start) /\
    generate_plan ascii_tables goa (str "Goa") 20000 4 [] (str "vegetarian") start
    = (Returned p, s') /\
    1 <= 4 /\
    concat (map snd (Itinerary p))
      ⊆+ default_if_empty (filter_attractions ascii_tables goa_attractions []) /\
    Z.of_nat (length (concat (map snd (Itinerary p))))
    = Z.min (Z.of_nat (length (default_if_empty
                                 (filter_attractions ascii_tables
                                    goa_attractions []))))
            (4 * Z.max 1 (Z.of_nat (length (default_if_empty
                                 (filter_attractions ascii_tables
                                    goa_attractions [])))
                          / 4)) /\
    (4 <= Z.of_nat (length (default_if_empty
                              (filter_attractions ascii_tables
                                 goa_attractions []))) ->
     Z.of_nat (length (default_if_empty
                         (filter_attractions ascii_tables goa_attractions [])))
     - Z.of_nat (length (concat (map snd (Itinerary p))))
     = Z.of_nat (length (default_if_empty
                           (filter_attractions ascii_tables goa_attractions [])))
       mod 4).
Proof.
  assert (Hs : scrape_holidify_attractions ascii_tables goa (str "Goa") start
               = (Returned goa_attractions, start))
    by (vm_compute; reflexivity).
  destruct (generate_plan ascii_tables goa (str "Goa") 20000 4 []
              (str "vegetarian") start) as [[p|e] s'] eqn:E;
    [| vm_compute in E; discriminate].
  assert (Hdays : 1 <= 4) by lia.
  exists p, s'. split; [exact Hs |]. split; [reflexivity |].
  split; [exact Hdays |].
  exact (itinerary_schedules_filtered_attractions ascii_tables goa (str "Goa")
           20000 4 [] (str "vegetarian") start goa_attractions p s' Hs E Hdays).
Defined.

(** X18.  The two addresses never hold a space: the spaces of the
    destination become hyphens. *)
Theorem urls_without_space U dest c :
  c ∈ attractions_url U dest \/ c ∈ hotels_url U dest -> c <> 32%N.
Proof.
  assert (Hslug : c ∈ slug U dest -> c <> 32%N).
  { unfold slug, replace_char.
    intros Hc. apply list_elem_of_In, in_map_iff in Hc as (x & <- & _).
    destruct (N.eqb_spec x 32); [discriminate | done]. }
  assert (Hlit : forall l : string,
             forallb (fun x => negb (N.eqb x 32)) (str l) = true ->
             c ∈ str l -> c <> 32%N).
  { intros l Hl Hc. rewrite forallb_forall in Hl.
    apply list_elem_of_In, Hl, negb_true_iff, N.eqb_neq in Hc. exact Hc. }
  unfold attractions_url, hotels_url. rewrite !elem_of_app.
  intros [[H | [H | H]] | [H | [H | H]]];
    solve [by apply Hslug | eapply Hlit; [| exact H]; reflexivity].
Qed.

Lemma urls_without_space_witness :
  45%N ∈ attractions_url ascii_tables (str "New Delhi") /\ 45%N <> 32%N.
Proof.
  assert (H : 45%N ∈ attractions_url ascii_tables (str "New Delhi")).
  { apply list_elem_of_In. vm_compute. do 35 right. left. reflexivity. }
  split; [exact H |].
  apply (urls_without_space ascii_tables (str "New Delhi") 45%N). by left.
Defined.

Example new_delhi_url :
  attractions_url ascii_tables (str "New Delhi")
  = str "https://www.holidify.com/places/new-delhi/sightseeing-and-things-to-do.html".
Proof. vm_compute. reflexivity. Qed.
